(** * Sentimental-Analysis: rating prediction from review text

    A shallow embedding of [a3_kadakia_111304945.py] and the properties
    its specification states about it.

    Conventions of the embedding:
    - a Python call that may raise returns a [result]; the exceptions the
      script can meet are the constructors of [PyErr];
    - floating-point numbers are exact rationals ([Q]) extended with the
      special values numpy produces on a division by zero ([npfloat]);
      rounding is not modelled;
    - the third-party libraries (pandas, nltk, gensim, scikit-learn, scipy)
      are section variables: the theorems hold for every behaviour of them,
      except where their documented behaviour is written out
      ([MAE], [PCA_transform]). *)

From Stdlib Require Import ZArith QArith Qabs Qround String Ascii List Bool Lia.
From stdpp Require Import base option list strings gmap.

Import ListNotations.
Local Open Scope string_scope.

(** ** Python exceptions and the error monad *)

Module Py.

Inductive PyErr : Type :=
  | FileNotFoundError
  | KeyError
  | ValueError
  | OverflowError
  | RuntimeError
  | NotFittedError
  | NameError (name : string)
  | AttributeError (attr : string).

Inductive result (A : Type) : Type :=
  | Ok (a : A)
  | Raise (e : PyErr).

Arguments Ok {A} a.
Arguments Raise {A} e.

Definition bind {A B : Type} (r : result A) (k : A -> result B) : result B :=
  match r with
  | Ok a => k a
  | Raise e => Raise e
  end.

(** A [for] loop whose body may raise: the state is threaded from one
    iteration to the next and the first exception ends the loop. *)
Fixpoint for_each {S X : Type} (body : S -> X -> result S) (xs : list X) (s : S)
  : result S :=
  match xs with
  | [] => Ok s
  | x :: xs' => bind (body s x) (for_each body xs')
  end.

(** Python's Boolean test [sub in s] on strings. *)
Fixpoint str_in (sub s : string) : bool :=
  String.prefix sub s ||
  match s with
  | EmptyString => false
  | String _ s' => str_in sub s'
  end.

End Py.

Import Py.

(** [result] is a monad; stdpp's [x ← e; k] is used for sequencing. *)
#[global] Instance result_ret : MRet result := @Ok.
#[global] Instance result_bind : MBind result := fun A B k r => bind r k.

Ltac unfold_bind := unfold mbind, mret, result_bind, result_ret, bind in *.

(** ** Numbers and vectors as numpy has them *)

Module Np.

(** A float: a finite number, or one of the special values. *)
Inductive npfloat : Type :=
  | Fin (q : Q)
  | NaN
  | PInf
  | NInf.

Definition is_finite (x : npfloat) : bool :=
  match x with
  | Fin _ => true
  | _ => false
  end.

(** [x / n] for a finite [x] and a Python integer [n]: numpy warns and
    returns nan or an infinity where the divisor is zero; it does not raise. *)
Definition true_divide (x : Q) (n : Z) : npfloat :=
  if (n =? 0)%Z then
    if Qeq_bool x 0 then NaN
    else if Qle_bool 0 x then PInf else NInf
  else Fin (x / inject_Z n).

(** [[0] * n] *)
Definition zeros (n : nat) : list Q := repeat 0%Q n.

(** element-wise [a + b] of two arrays of one shape *)
Definition add (a b : list Q) : list Q := zip_with Qplus a b.

(** element-wise [a - b] *)
Definition sub (a b : list Q) : list Q := zip_with Qminus a b.

(** [np.dot] of two one-dimensional arrays *)
Definition dot (a b : list Q) : Q := fold_left Qplus (zip_with Qmult a b) 0%Q.

(** [array / n] *)
Definition divide (a : list Q) (n : Z) : list npfloat :=
  map (fun x => true_divide x n) a.

(** Whether a Python integer fits [np.int], a C long of 64 bits. *)
Definition fits_int64 (z : Z) : bool :=
  (- 2 ^ 63 <=? z)%Z && (z <? 2 ^ 63)%Z.

(** [np.asarray(l, dtype=np.int)] on a list of Python integers: an
    integer that does not fit is an [OverflowError]. *)
Definition asarray_int (l : list Z) : result (list Z) :=
  if forallb fits_int64 l then Ok l else Raise OverflowError.

End Np.

Import Np.

(** ** Stage 1.3-1.4: the embedding space and the feature extractor *)

Module Features.

(** The embedding dimension, [size=128] in [trainWord2VecModel] and the
    [128] of [getFeatures]. *)
Definition dim : nat := 128.

(** A review as [readCSV] stores it: the tokens of [word_tokenize], or the
    string it stores for a review cell that is not a string. *)
Inductive review : Type :=
  | Tokens (ws : list string)
  | Str (s : string).

(** [len(review)] *)
Definition len (r : review) : nat :=
  match r with
  | Tokens ws => length ws
  | Str s => String.length s
  end.

(** [for word in review]: the tokens of a list, the characters of a string *)
Definition words (r : review) : list string :=
  match r with
  | Tokens ws => ws
  | Str s => map (fun c => String c EmptyString) (list_ascii_of_string s)
  end.

(** A trained gensim model. [wv] maps each vocabulary word to its vector;
    [w2v_model.wv.index2word] lists the keys of [wv], so [word in
    index2word] is [wv !! word] being defined. Every vector has [size]
    entries, and the script only ever builds models with [size=128]. *)
Record Word2Vec : Type := {
  wv : gmap string (list Q);
  wv_shape : map_Forall (fun _ v => length v = dim) wv
}.

(** The body of the inner loop, on the pair [(temp, counter)]. In
    [temp += w2v_model.wv[word]] the right operand is a numpy array, so the
    sum is numpy's: element by element, also the first time, when [temp]
    is still the list [[0] * 128]. *)
Definition accumulate (w2v_model : Word2Vec) (st : list Q * Z) (word : string)
  : list Q * Z :=
  let '(temp, counter) := st in
  match wv w2v_model !! word with
  | Some v => (Np.add temp v, (counter + 1)%Z)
  | None => (temp, counter)
  end.

(** The body of the outer loop: the row appended to [train_x] for one
    review. *)
Definition review_features (w2v_model : Word2Vec) (r : review) : list npfloat :=
  let temp := zeros 128 in
  let counter := 1%Z in
  let '(temp, counter) := fold_left (accumulate w2v_model) (words r) (temp, counter) in
  Np.divide temp (Z.of_nat (len r)).

Definition getFeatures (w2v_model : Word2Vec) (reviews : list review)
  : list (list npfloat) :=
  let train_x := [] in
  fold_left (fun train_x r => (train_x ++ [review_features w2v_model r])%list)
            reviews train_x.

(** The extractor as the specification words it. *)
Module Spec.

(** the embedding vectors of the tokens that are in the vocabulary *)
Definition matched (E : Word2Vec) (tokens : list string) : list (list Q) :=
  omap (fun w => wv E !! w) tokens.

(** the coordinate-wise sum of a list of vectors *)
Definition vsum (vs : list (list Q)) : list Q :=
  fold_left Np.add vs (zeros dim).

Definition extractFeature (E : Word2Vec) (r : review) : list npfloat :=
  Np.divide (vsum (matched E (words r))) (Z.of_nat (len r)).

End Spec.

End Features.

Import Features.

(** ** Stage 1.1-1.2: the corpus loader *)

Module Loader.

(** A cell of a pandas DataFrame after [pd.read_csv]: a string, a number
    (a column whose fields all parse as numbers is numeric), or the
    missing value [nan] (what pandas reads an empty field as). *)
Inductive cell : Type :=
  | CStr (s : string)
  | CInt (z : Z)
  | CFloat (q : Q)
  | CNaN.

(** The columns of a row that the script reads, by position: [line[0]],
    [line[1]], [line[4]] and [line[5]]; column 5 is the one named
    [reviewText]. *)
Record row : Type := {
  item_id : cell;
  rating : cell;
  user_id : cell;
  reviewText : cell
}.

Definition DataFrame : Type := list row.

(** The libraries the loader calls. *)
Class Pandas : Type := {
  read_csv : string -> result DataFrame
}.

Class Builtins : Type := {
  (** [int(s)] on a string *)
  int_of_str : string -> result Z;
  (** [s.lower()] *)
  lower : string -> string
}.

Class NLTK : Type := {
  word_tokenize : string -> list string
}.

(** [int(x)] on a cell: exact on an integer, truncation towards zero on a
    float, [ValueError] on [nan], the string parser on a string. *)
Definition py_int `{Builtins} (c : cell) : result Z :=
  match c with
  | CInt z => Ok z
  | CFloat q => Ok (Z.quot (Qnum q) (Zpos (Qden q)))
  | CNaN => Raise ValueError
  | CStr s => int_of_str s
  end.

(** [column.replace("", np.nan)] on one cell *)
Definition replace_empty (c : cell) : cell :=
  match c with
  | CStr EmptyString => CNaN
  | _ => c
  end.

Definition set_reviewText (f : cell -> cell) (r : row) : row :=
  {| item_id := item_id r; rating := rating r; user_id := user_id r;
     reviewText := f (reviewText r) |}.

Definition notna (c : cell) : bool :=
  match c with
  | CNaN => false
  | _ => true
  end.

(** [dataFile.dropna(subset=["reviewText"])] *)
Definition dropna_reviewText (df : DataFrame) : DataFrame :=
  List.filter (fun r => notna (reviewText r)) df.

(** [word_tokenize(line[5].lower()) if type(line[5]) == str else ""] *)
Definition tokenize_cell `{Builtins} `{NLTK} (c : cell) : review :=
  match c with
  | CStr s => Tokens (word_tokenize (lower s))
  | _ => Str ""
  end.

(** The body of the loop over [dataFile.iterrows()], on the three lists. *)
Definition append_row `{Builtins} `{NLTK}
  (st : list Z * list Z * list review) (line : row)
  : result (list Z * list Z * list review) :=
  let '(item_ids, ratings, reviews) := st in
  i ← py_int (item_id line);
  let item_ids := (item_ids ++ [i])%list in
  r ← py_int (rating line);
  let ratings := (ratings ++ [r])%list in
  let reviews := (reviews ++ [tokenize_cell (reviewText line)])%list in
  Ok (item_ids, ratings, reviews).

(** [readCSV] returns [[item_ids, reviews, ratings]]. *)
Definition readCSV `{Pandas} `{Builtins} `{NLTK} (fileName : string)
  : result (list Z * list review * list Z) :=
  dataFile ← read_csv fileName;
  let dataFile := map (set_reviewText replace_empty) dataFile in
  let dataFile := dropna_reviewText dataFile in
  '(item_ids, ratings, reviews) ← for_each append_row dataFile ([], [], []);
  Ok (item_ids, reviews, ratings).

(** A row of the file whose review-text field is empty or missing. *)
Definition empty_or_missing (r : row) : bool :=
  match reviewText r with
  | CNaN => true
  | CStr EmptyString => true
  | _ => false
  end.

End Loader.

Import Loader.

(** ** Stage 1.3: the embedding trainer *)

Module Trainer.

Record W2VParams : Type := {
  workers : Z;
  window : Z;
  alpha : Q;
  negative : Z;
  min_count : Z;
  seed : Z;
  size : Z
}.

Class Gensim : Type := {
  (** [multiprocessing.cpu_count()] *)
  cpu_count : Z;
  (** [Word2Vec(sentences=..., ...)] *)
  Word2Vec_new : list review -> W2VParams -> result Word2Vec;
  (** [model.train(sentences=..., epochs=...)], the model after training *)
  Word2Vec_train : Word2Vec -> list review -> Z -> result Word2Vec
}.

Definition trainWord2VecModel `{Gensim} (reviews : list review) (min_count : Z)
  : result Word2Vec :=
  let cores := cpu_count in
  w2v_model ← Word2Vec_new reviews
    {| workers := cores - 1; window := 10; alpha := 3 # 100; negative := 0;
       min_count := min_count; seed := 42; size := 128 |};
  w2v_model ← Word2Vec_train w2v_model reviews 30;
  Ok w2v_model.

End Trainer.

Import Trainer.

(** ** Stage 1.5: the rating predictor *)

Module Predictor.

Definition matrix : Type := list (list npfloat).

(** scikit-learn's [Ridge] and scipy's [pearsonr]. *)
Class Sklearn : Type := {
  Ridge : Type;
  (** [Ridge(random_state=..., alpha=...).fit(X, y)] *)
  Ridge_fit : Z -> Q -> matrix -> list Z -> result Ridge;
  (** [model.predict(X)] *)
  Ridge_predict : Ridge -> matrix -> result (list Q)
}.

Class Scipy : Type := {
  pearsonr : list Z -> list Q -> result (npfloat * npfloat)
}.

(** [sklearn.metrics.mean_absolute_error], imported as [MAE]: the average of
    the absolute differences; [ValueError] on arrays of different lengths
    or without samples. *)
Definition MAE (y_true : list Z) (y_pred : list Q) : result Q :=
  if negb (length y_true =? length y_pred)%nat || (length y_true =? 0)%nat
  then Raise ValueError
  else
    let errors := zip_with (fun t p => Qabs (p - inject_Z t)) y_true y_pred in
    Ok (fold_right Qplus 0%Q errors / inject_Z (Z.of_nat (length y_true)))%Q.

Definition Qltb (a b : Q) : bool := negb (Qle_bool b a).

Definition listC : list Q :=
  [1 # 10000; 1 # 1000; 1 # 100; 1 # 10; 1; 10; 100; 1000; 10000]%Q.

(** The variables the sweep updates. *)
Record Best `{Sklearn} : Type := {
  minAccuracy : Q;
  bestModel : option Ridge;
  best_pearsonr : npfloat
}.

(** One iteration of the loop over [listC]. *)
Definition try_C `{Sklearn} `{Scipy} (train_x test_x : matrix) (train_y test_y : list Z)
  (st : Best) (C : Q) : result Best :=
  model ← Ridge_fit 42 C train_x train_y;
  y_pred ← Ridge_predict model test_x;
  acc ← MAE test_y y_pred;
  pearsonr ← pearsonr test_y y_pred;
  if Qltb acc 1 && Qle_bool acc (minAccuracy st) then
    Ok {| minAccuracy := acc; bestModel := Some model;
          best_pearsonr := fst pearsonr |}
  else Ok st.

Definition buildRatingPredictor `{Sklearn} `{Scipy}
  (train_x test_x : matrix) (train_y test_y : list Z) : result (option Ridge) :=
  let init := {| minAccuracy := 1; bestModel := None;
                 best_pearsonr := Fin (35 # 100) |} in
  st ← for_each (try_C train_x test_x train_y test_y) listC init;
  Ok (bestModel st).

(** The held-out error of a fitted model, as the loop computes it. *)
Definition heldout_MAE `{Sklearn} (test_x : matrix) (test_y : list Z) (model : Ridge)
  : result Q :=
  y_pred ← Ridge_predict model test_x;
  MAE test_y y_pred.

Section Sweep.

Context `{Sklearn} `{Scipy}.
Variables (train_x test_x : matrix) (train_y test_y : list Z).

(** What one iteration computes before it compares: the fitted model,
    its held-out error and the correlation coefficient. *)
Definition candidate (C : Q) : result (Ridge * Q * npfloat) :=
  model ← Ridge_fit 42 C train_x train_y;
  y_pred ← Ridge_predict model test_x;
  acc ← MAE test_y y_pred;
  pearsonr ← pearsonr test_y y_pred;
  Ok (model, acc, fst pearsonr).

(** What holds of the loop variables after the candidates [seen]. *)
Definition swept (seen : list Q) (st : Best) : Prop :=
  (minAccuracy st <= 1)%Q /\
  (forall C, In C seen ->
     exists model acc r,
       candidate C = Ok (model, acc, r) /\ (minAccuracy st <= acc)%Q) /\
  match bestModel st with
  | None => minAccuracy st = 1%Q
  | Some model =>
      (minAccuracy st < 1)%Q /\
      exists C r, In C seen /\ candidate C = Ok (model, minAccuracy st, r)
  end.

End Sweep.

End Predictor.

Import Predictor.

(** ** Stage 2.3: the principal-component projection *)

Module UserFactors.

(** A scikit-learn [PCA] object: the requested number of components and,
    once fitted, [mean_] and the rows of [components_]. *)
Record PCA : Type := {
  n_components : nat;
  fitted : option (list Q * list (list Q))
}.

(** [PCA(n_components=n)] *)
Definition PCA_new (n : nat) : PCA := {| n_components := n; fitted := None |}.

Class SklearnPCA : Type := {
  (** [pca.fit(X)]: the object after fitting *)
  PCA_fit : PCA -> matrix -> result PCA
}.

Definition as_finite (x : npfloat) : option Q :=
  match x with
  | Fin q => Some q
  | _ => None
  end.

(** [check_array]: a matrix with a nan or an infinity, or a row that has
    not [n_features] entries, is refused with [ValueError]. *)
Definition check_array (n_features : nat) (X : matrix) : result (list (list Q)) :=
  match mapM (mapM as_finite) X with
  | Some M =>
      if forallb (fun x => (length x =? n_features)%nat) M then Ok M
      else Raise ValueError
  | None => Raise ValueError
  end.

(** [pca.transform(X)], a method of the object [self]: it returns the
    object as it leaves it, and [(X - mean_) . components_^T]. *)
Definition PCA_transform (self : PCA) (X : matrix)
  : result (PCA * list (list Q)) :=
  match fitted self with
  | None => Raise NotFittedError
  | Some (mean_, components_) =>
      X ← check_array (length mean_) X;
      let X := map (fun x => Np.sub x mean_) X in
      let X_transformed := map (fun x => map (Np.dot x) components_) X in
      Ok (self, X_transformed)
  end.

(** [user_reps] is a dictionary; [values()] lists its values in insertion
    order. *)
Definition values {K V : Type} (d : list (K * V)) : list V := map snd d.

Definition runPCAMatrix `{SklearnPCA} (user_reps : list (string * list npfloat))
  : result (list (list Q)) :=
  user_PCA ← PCA_fit (PCA_new 3) (values user_reps);
  '(user_PCA, v_matrix) ← PCA_transform user_PCA (values user_reps);
  Ok v_matrix.

End UserFactors.

Import UserFactors.

(** ** The main script, stage 1 *)

Module Main.

(** What the handling of [sys.argv] can lead to: the script goes on with
    two file names, or it ends with a usage message and an exit status. *)
Inductive ArgOutcome : Type :=
  | Run (training_file trial_file : string)
  | UsageExit (status : Z).

(** Lines 271-279. [sys.argv[0]] is the script's own name, so two
    positional arguments make [len(sys.argv)] three. *)
Definition select_files (argv : list string) : ArgOutcome :=
  if (length argv <? 3)%nat || (3 <? length argv)%nat then
    let training_file := "food_train.csv" in
    let trial_file := "food_trial.csv" in
    Run training_file trial_file
  else
    let training_file := nth 1 argv "" in
    let trial_file := nth 2 argv "" in
    Run training_file trial_file.

(** The two names that stage 1.3 may or may not bind. *)
Record Env : Type := {
  train_w2v_model : option Word2Vec;
  test_w2v_model : option Word2Vec
}.

Definition unbound : Env :=
  {| train_w2v_model := None; test_w2v_model := None |}.

(** Reading a name: [NameError] when nothing was assigned to it. *)
Definition read_name {A : Type} (name : string) (v : option A) : result A :=
  match v with
  | Some x => Ok x
  | None => Raise (NameError name)
  end.

(** One of the three [if "..." in trial_file:] blocks of lines 289-299. *)
Definition train_if `{Gensim} (pattern trial_file : string) (min_count : Z)
  (training_reviews trial_reviews : list review) (env : Env) : result Env :=
  if str_in pattern trial_file then
    train ← trainWord2VecModel training_reviews min_count;
    test ← trainWord2VecModel trial_reviews min_count;
    Ok {| train_w2v_model := Some train; test_w2v_model := Some test |}
  else Ok env.

(** Lines 289-299. *)
Definition stage_1_3 `{Gensim} (trial_file : string)
  (training_reviews trial_reviews : list review) (env : Env) : result Env :=
  env ← train_if "food_" trial_file 5 training_reviews trial_reviews env;
  env ← train_if "music_" trial_file 10 training_reviews trial_reviews env;
  env ← train_if "musicAndPetsup_" trial_file 20 training_reviews trial_reviews env;
  Ok env.

(** Lines 302-305: [train_x], [test_x], [train_y], [test_y]. *)
Definition stage_1_4 (training_data trial_data : list Z * list review * list Z)
  (env : Env) : result (matrix * matrix * list Z * list Z) :=
  w2v ← read_name "train_w2v_model" (train_w2v_model env);
  let train_x := getFeatures w2v (snd (fst training_data)) in
  w2v ← read_name "test_w2v_model" (test_w2v_model env);
  let test_x := getFeatures w2v (snd (fst trial_data)) in
  train_y ← asarray_int (snd training_data);
  test_y ← asarray_int (snd trial_data);
  Ok (train_x, test_x, train_y, test_y).

(** Lines 308-309: the predictions of the selected model; calling
    [predict] on [None] is an [AttributeError]. *)
Definition stage_1_5 `{Sklearn} `{Scipy}
  (xy : matrix * matrix * list Z * list Z) : result (list Q) :=
  let '(train_x, test_x, train_y, test_y) := xy in
  rating_model ← buildRatingPredictor train_x test_x train_y test_y;
  match rating_model with
  | Some rating_model => Ridge_predict rating_model test_x
  | None => Raise (AttributeError "predict")
  end.

(** Lines 284-309, from the two file names to [y_pred]. *)
Definition stage_1 `{Pandas} `{Builtins} `{NLTK} `{Gensim} `{Sklearn} `{Scipy}
  (training_file trial_file : string) : result (list Q) :=
  training_data ← readCSV training_file;
  trial_data ← readCSV trial_file;
  env ← stage_1_3 trial_file (snd (fst training_data)) (snd (fst trial_data)) unbound;
  xy ← stage_1_4 training_data trial_data env;
  stage_1_5 xy.

(** The outcome of a run: it ended at the handling of the arguments, or
    stage 1 ran to its result or to an exception. *)
Inductive Outcome : Type :=
  | Exited (status : Z)
  | Stage1 (r : result (list Q)).

Definition main `{Pandas} `{Builtins} `{NLTK} `{Gensim} `{Sklearn} `{Scipy}
  (argv : list string) : Outcome :=
  match select_files argv with
  | UsageExit status => Exited status
  | Run training_file trial_file => Stage1 (stage_1 training_file trial_file)
  end.

End Main.

Import Main.

(** ** Two claims as the specification states them *)

Module Stated.

Section WithLibraries.

Context `{Pandas} `{Builtins} `{NLTK}.

(** The first claim about the loader as the specification states it: the
    rows with an empty or missing review text are the ones left out, and
    every row that is kept has its item id and rating as integers and its
    review as the tokens of its lower-cased text. *)
Definition loads_tokenized (fileName : string) : Prop :=
  forall df item_ids reviews ratings,
    read_csv fileName = Ok df ->
    readCSV fileName = Ok (item_ids, reviews, ratings) ->
    let kept := List.filter (fun r => negb (empty_or_missing r)) df in
    length reviews = (length df - length (List.filter empty_or_missing df))%nat /\
    Forall2 (fun line i => py_int (item_id line) = Ok i) kept item_ids /\
    Forall2 (fun line r => py_int (rating line) = Ok r) kept ratings /\
    Forall2 (fun line rev =>
               exists text,
                 (forall s, reviewText line = CStr s -> text = s) /\
                 rev = Tokens (word_tokenize (lower text)))
            kept reviews.

End WithLibraries.


End Stated.

Import Stated.

(** ** A toy installation and small inputs, for concrete runs *)

Module Toy.

(** The space with no word in it, and a space that knows the one word
    "good", used as concrete inputs. *)
Definition empty_space : Word2Vec :=
  {| wv := ∅; wv_shape := map_Forall_empty _ |}.

Definition good_shape :
  map_Forall (fun (_ : string) (v : list Q) => length v = dim)
             ({["good" := repeat 1%Q 128]} : gmap string (list Q)).
Proof. apply map_Forall_singleton. reflexivity. Defined.

Definition good_space : Word2Vec :=
  {| wv := {["good" := repeat 1%Q 128]}; wv_shape := good_shape |}.

Definition ascii_lower (c : ascii) : ascii :=
  let n := nat_of_ascii c in
  if (65 <=? n)%nat && (n <=? 90)%nat then ascii_of_nat (n + 32) else c.

Fixpoint string_lower (s : string) : string :=
  match s with
  | EmptyString => EmptyString
  | String c s' => String (ascii_lower c) (string_lower s')
  end.

(** Splits at spaces; [cur] is the word read so far. *)
Fixpoint split_spaces (cur s : string) : list string :=
  match s with
  | EmptyString => if String.eqb cur "" then [] else [cur]
  | String c s' =>
      if Ascii.eqb c " "%char
      then (if String.eqb cur "" then [] else [cur]) ++ split_spaces "" s'
      else split_spaces (cur ++ String c EmptyString) s'
  end%list.

Definition toy_frame : DataFrame :=
  [ {| item_id := CInt 1; rating := CInt 5; user_id := CStr "u1";
       reviewText := CStr "Good product" |};
    {| item_id := CInt 2; rating := CInt 1; user_id := CStr "u2";
       reviewText := CNaN |};
    {| item_id := CInt 3; rating := CFloat (4 # 1); user_id := CStr "u1";
       reviewText := CStr "good item" |};
    {| item_id := CInt 4; rating := CInt 3; user_id := CStr "u3";
       reviewText := CStr "" |} ].

(** A file whose review column holds only numbers: pandas reads the
    column as integers. *)
Definition numeric_frame : DataFrame :=
  [ {| item_id := CInt 7; rating := CInt 3; user_id := CStr "u9";
       reviewText := CInt 12345 |} ].

#[export] Instance toy_pandas : Pandas := {
  read_csv f :=
    if String.eqb f "toy.csv" then Ok toy_frame
    else if String.eqb f "numeric.csv" then Ok numeric_frame
    else Raise FileNotFoundError
}.

#[export] Instance toy_builtins : Builtins := {
  int_of_str _ := Raise ValueError;
  lower := string_lower
}.

#[export] Instance toy_nltk : NLTK := {
  word_tokenize := split_spaces ""
}.

#[export] Instance toy_gensim : Gensim := {
  cpu_count := 4;
  Word2Vec_new _ _ := Ok good_space;
  Word2Vec_train w2v _ _ := Ok w2v
}.

(** A regressor that predicts [3 + alpha] for every row. *)
#[export] Instance toy_sklearn : Sklearn := {
  Ridge := Q;
  Ridge_fit _ alpha _ _ := Ok alpha;
  Ridge_predict model X := Ok (map (fun _ => 3 + model)%Q X)
}.

#[export] Instance toy_scipy : Scipy := {
  pearsonr _ _ := Ok (NaN, NaN)
}.

(** Six users in four dimensions, spread along the first three axes: the
    mean is the origin and the principal axes are the coordinate axes. *)
Definition six_users : list (string * list npfloat) :=
  [ ("u1", [Fin 3; Fin 0; Fin 0; Fin 0]);
    ("u2", [Fin (-3); Fin 0; Fin 0; Fin 0]);
    ("u3", [Fin 0; Fin 2; Fin 0; Fin 0]);
    ("u4", [Fin 0; Fin (-2); Fin 0; Fin 0]);
    ("u5", [Fin 0; Fin 0; Fin 1; Fin 0]);
    ("u6", [Fin 0; Fin 0; Fin (-1); Fin 0]) ].

Definition axes_transform : PCA :=
  {| n_components := 3;
     fitted := Some ([0; 0; 0; 0],
                     [[1; 0; 0; 0]; [0; 1; 0; 0]; [0; 0; 1; 0]])%Q |}.

(** A [fit] that answers with the axes; for [six_users] this is the
    principal-component fit. *)
#[export] Instance axes_fit : SklearnPCA := {
  PCA_fit self X :=
    Ok {| n_components := n_components self; fitted := fitted axes_transform |}
}.

End Toy.

(** ** Stage 2.1-2.2: the users and their language representations *)

Module Users.

(** Python's test that two values are the same dictionary key (same
    hash, and the same object or equal). *)
Class PyDict : Type := {
  same_key : cell -> cell -> bool
}.

(** A dictionary keyed by cells, in insertion order. *)
Section Dict.

Context `{PyDict} {V : Type}.

(** the position of the entry a key reaches, for [k in d] and [d[k]] *)
Fixpoint dict_index (d : list (cell * V)) (k : cell) : option nat :=
  match d with
  | [] => None
  | (k', _) :: d' =>
      if same_key k' k then Some 0%nat else S <$> dict_index d' k
  end.

(** [d[k] = v]: the value of the entry is replaced and its key stays, or
    a new entry is added at the end. *)
Fixpoint dict_set (d : list (cell * V)) (k : cell) (v : V) : list (cell * V) :=
  match d with
  | [] => [(k, v)]
  | (k', v') :: d' =>
      if same_key k' k then (k', v) :: d' else (k', v') :: dict_set d' k v
  end.

End Dict.

(** The value [[[], [], []]] kept for a user: item ids, ratings, reviews. *)
Definition UserLists : Type := list Z * list Z * list review.

(** The three [append]s on [temp_user]. *)
Definition append_to (i r : Z) (rev : review) (entry : cell * UserLists)
  : cell * UserLists :=
  let '(user, (item_ids, ratings, reviews)) := entry in
  (user, (item_ids ++ [i], ratings ++ [r], reviews ++ [rev]))%list.

(** The body of the loop over the rows, lines 221-232. [temp_user] is
    the position of the user's entry: the one found, or the one just
    added. The appends happen in one step after both [int] calls; an
    exception of either call leaves the function. *)
Definition add_user_row `{PyDict} `{Builtins} `{NLTK}
  (users : list (cell * UserLists)) (line : row)
  : result (list (cell * UserLists)) :=
  let user := user_id line in
  let '(users, temp_user) :=
    match dict_index users user with
    | Some pos => (users, pos)
    | None => ((users ++ [(user, ([], [], []))])%list, length users)
    end in
  i ← py_int (item_id line);
  r ← py_int (rating line);
  Ok (alter (append_to i r (tokenize_cell (reviewText line))) temp_user users).

(** The body of the loop over the files, lines 214-232. *)
Definition add_file `{Pandas} `{PyDict} `{Builtins} `{NLTK}
  (users : list (cell * UserLists)) (file : string)
  : result (list (cell * UserLists)) :=
  dataFile ← read_csv file;
  let dataFile := map (set_reviewText replace_empty) dataFile in
  let dataFile := dropna_reviewText dataFile in
  for_each add_user_row dataFile users.

Definition getUserBackground `{Pandas} `{PyDict} `{Builtins} `{NLTK}
  (files : list string) : result (list (cell * UserLists)) :=
  let users := [] in
  for_each add_file files users.

(** numpy's [x + y] on floats *)
Definition fadd (x y : npfloat) : npfloat :=
  match x, y with
  | Fin a, Fin b => Fin (a + b)
  | NaN, _ | _, NaN => NaN
  | PInf, NInf | NInf, PInf => NaN
  | PInf, _ | _, PInf => PInf
  | NInf, _ | _, NInf => NInf
  end.

(** numpy's [x / n] on a float and a Python integer that is not negative *)
Definition fdiv (x : npfloat) (n : Z) : npfloat :=
  match x with
  | Fin q => true_divide q n
  | other => other
  end.

(** Lines 243-248 for one user. [temp_array] is the list [[0] * 128]
    until the first [temp_array += row] makes it an array; with no row it
    still is a list at the division, which is a [TypeError]: [None]. *)
Definition average_rows (temp_features : matrix) : option (list npfloat) :=
  match temp_features with
  | [] => None
  | _ =>
      let temp_array := fold_left (zip_with fadd) temp_features (repeat (Fin 0) 128) in
      Some (map (fun x => fdiv x (Z.of_nat (length temp_features))) temp_array)
  end.

(** The loop of [getUserLangRepresentation] from the entries [todo] on;
    [None] is the [TypeError] of [average_rows]. *)
Fixpoint lang_rep_loop `{PyDict} (model : Word2Vec)
  (todo : list (cell * UserLists)) (user_lang_rep : list (cell * list npfloat))
  : option (list (cell * list npfloat)) :=
  match todo with
  | [] => Some user_lang_rep
  | (user, (_, _, reviews)) :: todo' =>
      let temp_features := getFeatures model reviews in
      match average_rows temp_features with
      | Some rep => lang_rep_loop model todo' (dict_set user_lang_rep user rep)
      | None => None
      end
  end.

Definition getUserLangRepresentation `{PyDict} (model : Word2Vec)
  (users : list (cell * UserLists)) : option (list (cell * list npfloat)) :=
  lang_rep_loop model users [].

End Users.

Import Users.

(** ** Stage 1.3 and the spot checks of the main script *)

Module Checks.

(** The [min_count] the models are trained with in the end: each of the
    three blocks of lines 289-299 that runs assigns both names anew. *)
Definition effective_min_count (trial_file : string) : option Z :=
  if str_in "musicAndPetsup_" trial_file then Some 20%Z
  else if str_in "music_" trial_file then Some 10%Z
  else if str_in "food_" trial_file then Some 5%Z
  else None.

(** What the script prints in a spot check. *)
Inductive Line : Type :=
  | Blank
  | Predicted (case : Z) (predicted : Q) (true_value : Z)
  | NotIn (case : Z) (file : string).

(** [l.index(x)] for an [x] that is in [l]: the first position *)
Fixpoint index (x : Z) (l : list Z) : option nat :=
  match l with
  | [] => None
  | y :: l' => if (y =? x)%Z then Some 0%nat else S <$> index x l'
  end.

(** [x in l] *)
Definition mem (x : Z) (l : list Z) : bool := existsb (Z.eqb x) l.

(** One turn of a loop over [testCases]; [None] is an [IndexError]. *)
Definition check_case (trial_file : string)
  (trial_data : list Z * list review * list Z) (y_pred : list Q) (case : Z)
  : option (list Line) :=
  let '(item_ids, _, ratings) := trial_data in
  if mem case item_ids then
    pos ← index case item_ids;
    predicted ← y_pred !! pos;
    true_value ← ratings !! pos;
    Some [Blank; Predicted case predicted true_value]
  else Some [NotIn case trial_file].

Fixpoint check_cases (trial_file : string)
  (trial_data : list Z * list review * list Z) (y_pred : list Q)
  (testCases : list Z) : option (list Line) :=
  match testCases with
  | [] => Some []
  | case :: rest =>
      out ← check_case trial_file trial_data y_pred case;
      more ← check_cases trial_file trial_data y_pred rest;
      Some (out ++ more)%list
  end.

(** Lines 318-339. *)
Definition spot_checks (trial_file : string)
  (trial_data : list Z * list review * list Z) (y_pred : list Q)
  : option (list Line) :=
  food ← (if str_in "food_" trial_file
          then check_cases trial_file trial_data y_pred [548; 4258; 4766; 5800]%Z
          else Some []);
  music ← (if str_in "music_" trial_file
           then check_cases trial_file trial_data y_pred [329; 11419; 14023; 14912]%Z
           else Some []);
  Some (food ++ music)%list.

End Checks.

Import Checks.

(** ** More of the toy installation *)

Module ToyUsers.

(** Keys are compared as strings; no other key is the same as any. *)
#[export] Instance toy_dict : PyDict := {
  same_key a b :=
    match a, b with
    | CStr s, CStr t => String.eqb s t
    | _, _ => false
    end
}.

End ToyUsers.

(** ** What the sweep keeps on a tie *)

Module Ties.

Section Sweep.

Context `{Sklearn} `{Scipy}.
Variables (train_x test_x : matrix) (train_y test_y : list Z).

(** After the candidates [seen], every candidate that came after the one
    whose model is kept has a strictly larger error. *)
Definition later_worse (seen : list Q) (st : Best) : Prop :=
  match bestModel st with
  | None => True
  | Some model =>
      exists l1 C l2 r,
        seen = (l1 ++ C :: l2)%list /\
        candidate train_x test_x train_y test_y C = Ok (model, minAccuracy st, r) /\
        forall C', In C' l2 ->
          exists model' acc' r',
            candidate train_x test_x train_y test_y C' = Ok (model', acc', r') /\
            (minAccuracy st < acc')%Q
  end.

End Sweep.

(** A regressor that predicts 3 whatever its strength: every candidate
    has the same error. *)
Definition flat_sklearn : Sklearn := {|
  Ridge := Q;
  Ridge_fit _ alpha _ _ := Ok alpha;
  Ridge_predict model X := Ok (map (fun _ => 3%Q) X)
|}.

End Ties.

Import Ties.

(** ** What a line of a spot check says *)

Module Lines.

(** A line is right for the trial data and the predictions: a reported
    prediction and rating are those at the first row with the item id,
    and an id reported as not in the file is the id of no row. *)
Definition line_is_right (trial_file : string) (item_ids ratings : list Z)
  (y_pred : list Q) (line : Line) : Prop :=
  match line with
  | Blank => True
  | Predicted case predicted true_value =>
      exists pos : nat,
        item_ids !! pos = Some case /\
        (forall j : nat, (j < pos)%nat -> item_ids !! j <> Some case) /\
        y_pred !! pos = Some predicted /\
        ratings !! pos = Some true_value
  | NotIn case file => file = trial_file /\ ~ In case item_ids
  end.

End Lines.

Import Lines.

(** ** A second toy installation: two files of a food data set *)

Module ToyShop.

Definition trial_frame : DataFrame :=
  [ {| item_id := CInt 548; rating := CInt 4; user_id := CStr "u1";
       reviewText := CStr "good" |};
    {| item_id := CInt 7; rating := CInt 2; user_id := CStr "u2";
       reviewText := CStr "bad item" |};
    {| item_id := CInt 548; rating := CInt 1; user_id := CStr "u3";
       reviewText := CStr "Bad" |} ].

Definition shop_pandas : Pandas := {|
  read_csv f :=
    if String.eqb f "food_train.csv" then Ok Toy.toy_frame
    else if String.eqb f "food_trial.csv" then Ok trial_frame
    else Raise FileNotFoundError
|}.

(** The users of the two files, and one user with two reviews. *)
Definition shop_users : list (cell * UserLists) :=
  [ (CStr "u1", ([1; 3; 548], [5; 4; 4],
                 [Tokens ["good"; "product"]; Tokens ["good"; "item"]; Tokens ["good"]]));
    (CStr "u2", ([7], [2], [Tokens ["bad"; "item"]]));
    (CStr "u3", ([548], [1], [Tokens ["bad"]])) ]%Z.


End ToyShop.

(** ** Notions for the statements about the users *)

Module UsersStated.

(** The rows of a file that the loops run over. *)
Definition kept_rows (df : DataFrame) : list row :=
  List.filter (fun r => negb (empty_or_missing r)) df.

Definition reviews_of (entry : cell * UserLists) : list review := snd (snd entry).

(** The three lists of a user are parallel and not empty. *)
Definition parallel (entry : cell * UserLists) : Prop :=
  let '(_, (item_ids, ratings, reviews)) := entry in
  length item_ids = length ratings /\
  length ratings = length reviews /\
  (0 < length reviews)%nat.

(** No key of a dictionary is the same key as a later one. *)
Fixpoint distinct_keys `{PyDict} {V : Type} (d : list (cell * V)) : Prop :=
  match d with
  | [] => True
  | (k, _) :: d' => Forall (fun e => same_key k (fst e) = false) d' /\ distinct_keys d'
  end.

(** The average of a review in exact arithmetic: the sum of the vectors
    of its known tokens over the number of its tokens. *)
Definition review_mean (E : Word2Vec) (r : review) : list Q :=
  map (fun x => x / inject_Z (Z.of_nat (len r)))%Q
      (Features.Spec.vsum (Features.Spec.matched E (words r))).

(** The mean of the averages of some reviews. *)
Definition user_mean (E : Word2Vec) (reviews : list review) : list Q :=
  map (fun x => x / inject_Z (Z.of_nat (length reviews)))%Q
      (fold_left Np.add (map (review_mean E) reviews) (zeros 128)).

(** The number of records of all users. *)
Definition records (users : list (cell * UserLists)) : nat :=
  sum_list_with (fun e => length (reviews_of e)) users.

(** The rows that belong to the user with key [u]. *)
Definition rows_of `{PyDict} (u : cell) (rows : list row) : list row :=
  List.filter (fun r => same_key u (user_id r)) rows.

(** The lists of a user hold the user's rows, in the order of [rows]. *)
Definition grouped `{PyDict} `{Builtins} `{NLTK} (rows : list row)
  (entry : cell * UserLists) : Prop :=
  let '(u, (item_ids, ratings, reviews)) := entry in
  let mine := rows_of u rows in
  Forall2 (fun line i => py_int (item_id line) = Ok i) mine item_ids /\
  Forall2 (fun line r => py_int (rating line) = Ok r) mine ratings /\
  reviews = map (fun line => tokenize_cell (reviewText line)) mine.

(** On the user ids [ids], being the same key is being equal. *)
Definition key_is_eq `{PyDict} (ids : list cell) : Prop :=
  forall a b, In a ids -> In b ids -> (same_key a b = true <-> a = b).

(** What holds of the dictionary after the rows [done]. *)
Definition collected `{PyDict} `{Builtins} `{NLTK} (done : list row) (users : list (cell * UserLists)) : Prop :=
  distinct_keys users /\
  Forall (fun e => In (fst e) (map user_id done)) users /\
  Forall (fun r => In (user_id r) (map fst users)) done /\
  Forall (grouped done) users.

End UsersStated.

Import UsersStated.

(** * Properties *)

(** ** The feature extractor *)

Module FeaturesFacts.

Import Toy.

Lemma fold_append {A B : Type} (f : A -> B) (xs : list A) (acc : list B) :
  fold_left (fun acc x => (acc ++ [f x])%list) xs acc = (acc ++ map f xs)%list.
Proof.
  revert acc. induction xs as [|x xs IH]; intros acc; simpl.
  - by rewrite app_nil_r.
  - rewrite IH, <- app_assoc. reflexivity.
Qed.

(** The inner loop adds the vectors of the matched words, in order, and
    counts them. *)
Lemma accumulate_fold (E : Word2Vec) (ws : list string) (temp : list Q) (counter : Z) :
  fold_left (accumulate E) ws (temp, counter)
  = (fold_left Np.add (Spec.matched E ws) temp,
     (counter + Z.of_nat (length (Spec.matched E ws)))%Z).
Proof.
  revert temp counter. induction ws as [|w ws IH]; intros temp counter; simpl.
  - f_equal. lia.
  - unfold Spec.matched in *. simpl.
    destruct (wv E !! w) as [v|] eqn:Hw; simpl.
    + rewrite IH. f_equal. lia.
    + apply IH.
Qed.

Lemma review_features_spec (E : Word2Vec) (r : review) :
  review_features E r = Spec.extractFeature E r.
Proof.
  unfold review_features, Spec.extractFeature, Spec.vsum.
  rewrite accumulate_fold. reflexivity.
Qed.

Lemma matched_skip (E : Word2Vec) (l1 l2 : list string) (w : string) :
  wv E !! w = None -> Spec.matched E (l1 ++ w :: l2) = Spec.matched E (l1 ++ l2).
Proof.
  intros Hw. unfold Spec.matched. rewrite !omap_app. simpl. by rewrite Hw.
Qed.

Lemma matched_shape (E : Word2Vec) (ws : list string) :
  Forall (fun v => length v = dim) (Spec.matched E ws).
Proof.
  induction ws as [|w ws IH]; unfold Spec.matched in *; simpl.
  - constructor.
  - destruct (wv E !! w) as [v|] eqn:Hw; simpl; [|exact IH].
    constructor; [|exact IH]. exact (wv_shape E w v Hw).
Qed.

Lemma add_shape (n : nat) (a b : list Q) :
  length a = n -> length b = n -> length (Np.add a b) = n.
Proof. intros Ha Hb. unfold Np.add. rewrite length_zip_with. lia. Qed.

Lemma vsum_shape (n : nat) (vs : list (list Q)) (temp : list Q) :
  length temp = n -> Forall (fun v => length v = n) vs ->
  length (fold_left Np.add vs temp) = n.
Proof.
  intros Ht Hvs. revert temp Ht.
  induction Hvs as [|v vs Hv _ IH]; intros temp Ht; simpl; [exact Ht|].
  apply IH. by apply add_shape.
Qed.

Lemma review_features_length (E : Word2Vec) (r : review) :
  length (review_features E r) = dim.
Proof.
  rewrite review_features_spec. unfold Spec.extractFeature, Np.divide, Spec.vsum.
  rewrite length_map. apply vsum_shape; [apply repeat_length | apply matched_shape].
Qed.

Lemma divide_finite (a : list Q) (n : Z) :
  n <> 0%Z -> Forall (fun x => is_finite x = true) (Np.divide a n).
Proof.
  intros Hn. unfold Np.divide. apply Forall_map, Forall_forall. intros x _.
  unfold true_divide. destruct (Z.eqb_spec n 0); [contradiction | reflexivity].
Qed.

Lemma len_zero_words (r : review) : len r = 0%nat -> words r = [].
Proof.
  destruct r as [ws | s]; simpl.
  - by destruct ws.
  - by destruct s.
Qed.

(** C2: [getFeatures] gives, for every review, the coordinate-wise sum of
    the vectors of the tokens that are in the vocabulary, divided by the
    number of all tokens of the review; a token that is not in the
    vocabulary leaves the sum as it is and adds one to the divisor. *)
Theorem getFeatures_average_over_all_tokens :
  (forall (E : Word2Vec) (reviews : list review),
      getFeatures E reviews = map (Spec.extractFeature E) reviews) /\
  (forall (E : Word2Vec) (l1 l2 : list string) (w : string),
      wv E !! w = None ->
      review_features E (Tokens (l1 ++ w :: l2))
      = Np.divide (Spec.vsum (Spec.matched E (l1 ++ l2)))
                  (Z.of_nat (length (l1 ++ l2)) + 1)).
Proof.
  split.
  - intros E reviews. unfold getFeatures. rewrite fold_append. simpl.
    apply map_ext. intros r. apply review_features_spec.
  - intros E l1 l2 w Hw. rewrite review_features_spec.
    unfold Spec.extractFeature. simpl. rewrite (matched_skip _ _ _ _ Hw).
    f_equal. rewrite !length_app. simpl. lia.
Qed.

Lemma getFeatures_average_over_all_tokens_witness :
  getFeatures good_space [Tokens ["good"; "stuff"]]
  = map (Spec.extractFeature good_space) [Tokens ["good"; "stuff"]] /\
  review_features good_space (Tokens (["good"] ++ "stuff" :: []))
  = Np.divide (Spec.vsum (Spec.matched good_space (["good"] ++ [])))
              (Z.of_nat (length (["good"] ++ [] : list string)) + 1).
Proof.
  split.
  - apply (proj1 getFeatures_average_over_all_tokens).
  - apply (proj2 getFeatures_average_over_all_tokens good_space ["good"] [] "stuff").
    vm_compute. reflexivity.
Defined.

(** C7: for a review with at least one token, the feature vector has
    exactly 128 entries, whatever tokens the vocabulary knows, and every
    entry is a finite number. *)
Theorem review_features_dimension (E : Word2Vec) (r : review) :
  (0 < len r)%nat ->
  length (review_features E r) = 128%nat /\
  Forall (fun x => is_finite x = true) (review_features E r).
Proof.
  intros Hlen. split.
  - apply review_features_length.
  - rewrite review_features_spec. apply divide_finite. lia.
Qed.

Lemma review_features_dimension_witness :
  length (review_features empty_space (Tokens ["bad"; "item"])) = 128%nat /\
  Forall (fun x => is_finite x = true)
         (review_features empty_space (Tokens ["bad"; "item"])).
Proof.
  apply (review_features_dimension empty_space (Tokens ["bad"; "item"])).
  simpl. lia.
Defined.

(** C3, as the code has it: for a review with no token nothing is raised;
    the sum of no vector is divided by zero and the row is 128 times nan. *)
Theorem review_features_zero_tokens (E : Word2Vec) (r : review) :
  len r = 0%nat -> review_features E r = repeat NaN 128.
Proof.
  intros Hlen. rewrite review_features_spec. unfold Spec.extractFeature.
  rewrite Hlen, (len_zero_words r Hlen). reflexivity.
Qed.

Lemma review_features_zero_tokens_witness :
  review_features good_space (Tokens []) = repeat NaN 128.
Proof. apply (review_features_zero_tokens good_space (Tokens [])). reflexivity. Defined.

(** C3, as stated, fails: on the review without tokens the extractor
    returns a row, and the row holds nan. *)
Lemma zero_token_review_returns_nan :
  getFeatures empty_space [Tokens []] = [repeat NaN 128] /\
  ~ Forall (fun x => is_finite x = true) (review_features empty_space (Tokens [])).
Proof.
  split; [reflexivity|].
  intros H. apply Forall_cons_1 in H. destruct H as [H _]. discriminate H.
Qed.

End FeaturesFacts.

(** ** The corpus loader *)

Module LoaderFacts.

Section WithLibraries.

Context `{Pandas} `{Builtins} `{NLTK}.

(** The rows the loop runs over are the rows of the file whose review
    text is neither empty nor missing, unchanged. *)
Lemma dropna_replace_empty (df : DataFrame) :
  dropna_reviewText (map (set_reviewText replace_empty) df)
  = List.filter (fun r => negb (empty_or_missing r)) df.
Proof.
  unfold dropna_reviewText. induction df as [|r df IH]; simpl; [reflexivity|].
  rewrite IH. destruct r as [i ra u t]. unfold empty_or_missing. simpl.
  destruct t as [s| | |]; simpl; try reflexivity.
  destruct s; reflexivity.
Qed.

Lemma filter_negb_length {A : Type} (p : A -> bool) (l : list A) :
  length (List.filter (fun x => negb (p x)) l)
  = (length l - length (List.filter p l))%nat.
Proof.
  induction l as [|x l IH]; simpl; [reflexivity|].
  pose proof (List.filter_length_le p l) as Hle.
  destruct (p x); simpl; lia.
Qed.

(** What the loop leaves in the three lists. *)
Lemma for_each_append_row (rows : list row) :
  forall item_ids ratings reviews item_ids' ratings' reviews',
    for_each append_row rows (item_ids, ratings, reviews)
    = Ok (item_ids', ratings', reviews') ->
    exists idz rtz,
      Forall2 (fun line i => py_int (item_id line) = Ok i) rows idz /\
      Forall2 (fun line r => py_int (rating line) = Ok r) rows rtz /\
      item_ids' = (item_ids ++ idz)%list /\
      ratings' = (ratings ++ rtz)%list /\
      reviews' = (reviews ++ map (fun line => tokenize_cell (reviewText line)) rows)%list.
Proof.
  induction rows as [|line rows IH]; intros ids rats revs ids' rats' revs' Hrun.
  - simpl in Hrun. injection Hrun as <- <- <-.
    exists [], []. rewrite !app_nil_r. repeat split; constructor.
  - simpl in Hrun. unfold_bind.
    destruct (py_int (item_id line)) as [i|e] eqn:Hi; [|discriminate].
    destruct (py_int (rating line)) as [r|e] eqn:Hr; [|discriminate].
    apply IH in Hrun as (idz & rtz & His & Hrs & -> & -> & ->).
    exists (i :: idz), (r :: rtz). rewrite <- !app_assoc. simpl.
    repeat split; try constructor; assumption.
Qed.

(** The loop ends without an exception when every row has an item id and
    a rating that [int] accepts. *)
Lemma for_each_append_row_returns (rows : list row) :
  Forall (fun line => (exists i, py_int (item_id line) = Ok i) /\
                      (exists r, py_int (rating line) = Ok r)) rows ->
  forall st, exists st', for_each append_row rows st = Ok st'.
Proof.
  induction 1 as [|line rows [[i Hi] [r Hr]] _ IH]; intros [[ids rats] revs].
  - eexists. reflexivity.
  - simpl. unfold_bind. rewrite Hi, Hr. apply IH.
Qed.

Lemma readCSV_returns (fileName : string) (df : DataFrame) :
  read_csv fileName = Ok df ->
  Forall (fun line => (exists i, py_int (item_id line) = Ok i) /\
                      (exists r, py_int (rating line) = Ok r))
         (List.filter (fun r => negb (empty_or_missing r)) df) ->
  exists data, readCSV fileName = Ok data.
Proof.
  intros Hread Hrows. unfold readCSV. unfold_bind. rewrite Hread.
  rewrite dropna_replace_empty.
  destruct (for_each_append_row_returns _ Hrows ([], [], [])) as [[[a b] c] ->].
  eexists. reflexivity.
Qed.

Lemma readCSV_inv (fileName : string) (item_ids : list Z) (reviews : list review)
  (ratings : list Z) :
  readCSV fileName = Ok (item_ids, reviews, ratings) ->
  exists df,
    read_csv fileName = Ok df /\
    let kept := List.filter (fun r => negb (empty_or_missing r)) df in
    Forall2 (fun line i => py_int (item_id line) = Ok i) kept item_ids /\
    Forall2 (fun line r => py_int (rating line) = Ok r) kept ratings /\
    reviews = map (fun line => tokenize_cell (reviewText line)) kept.
Proof.
  unfold readCSV. unfold_bind.
  destruct (read_csv fileName) as [df|e] eqn:Hread; [|discriminate].
  rewrite dropna_replace_empty.
  destruct (for_each _ _ _) as [[[a b] c]|e] eqn:Hloop; [|discriminate].
  intros [= -> -> ->].
  apply for_each_append_row in Hloop as (idz & rtz & His & Hrs & -> & -> & ->).
  exists df. split; [reflexivity|]. simpl. auto.
Qed.

Lemma lookup_map {A B : Type} (f : A -> B) (l : list A) (i : nat) (x : A) :
  l !! i = Some x -> map f l !! i = Some (f x).
Proof.
  revert i. induction l as [|y l IH]; intros [|i] Hi; simpl in *; try discriminate.
  - by injection Hi as ->.
  - by apply IH.
Qed.

(** C5, as the code has it: [readCSV] leaves out exactly the rows whose
    review text is empty or missing; of every row it keeps, the item id
    and the rating are coerced with [int], and the review is the tokens of
    the lower-cased text where the cell is a string and the empty string
    where the cell is not a string. *)
Theorem readCSV_drops_empty_reviews
  (fileName : string) (df : DataFrame)
  (item_ids : list Z) (reviews : list review) (ratings : list Z) :
  read_csv fileName = Ok df ->
  readCSV fileName = Ok (item_ids, reviews, ratings) ->
  let kept := List.filter (fun r => negb (empty_or_missing r)) df in
  length reviews = (length df - length (List.filter empty_or_missing df))%nat /\
  Forall2 (fun line i => py_int (item_id line) = Ok i) kept item_ids /\
  Forall2 (fun line r => py_int (rating line) = Ok r) kept ratings /\
  Forall2 (fun line rev =>
             match reviewText line with
             | CStr s => rev = Tokens (word_tokenize (lower s))
             | _ => rev = Str ""
             end)
          kept reviews.
Proof.
  intros Hread Hrun kept.
  apply readCSV_inv in Hrun as (df' & Hread' & Hids & Hrats & ->).
  rewrite Hread in Hread'. injection Hread' as <-. fold kept in Hids, Hrats |- *.
  repeat split; try assumption.
  - rewrite length_map. apply filter_negb_length.
  - clear Hids Hrats. induction kept as [|line kept IH]; simpl; constructor; [|exact IH].
    unfold tokenize_cell. destruct (reviewText line); reflexivity.
Qed.

(** C9: the three lists [readCSV] returns have one length, and position
    [i] of each of them comes from the [i]-th row that was kept. *)
Theorem readCSV_parallel_lists
  (fileName : string) (item_ids : list Z) (reviews : list review) (ratings : list Z) :
  readCSV fileName = Ok (item_ids, reviews, ratings) ->
  length item_ids = length reviews /\
  length reviews = length ratings /\
  exists df,
    read_csv fileName = Ok df /\
    let kept := List.filter (fun r => negb (empty_or_missing r)) df in
    length kept = length reviews /\
    forall (i : nat) (line : row),
      kept !! i = Some line ->
      exists id r,
        item_ids !! i = Some id /\ py_int (item_id line) = Ok id /\
        ratings !! i = Some r /\ py_int (rating line) = Ok r /\
        reviews !! i = Some (tokenize_cell (reviewText line)).
Proof.
  intros Hrun.
  apply readCSV_inv in Hrun as (df & Hread & Hids & Hrats & ->).
  pose proof (Forall2_length _ _ _ Hids) as Hl1.
  pose proof (Forall2_length _ _ _ Hrats) as Hl2.
  rewrite length_map. repeat split; try congruence.
  exists df. split; [exact Hread|]. simpl. split; [reflexivity|].
  intros i line Hi.
  destruct (Forall2_lookup_l _ _ _ _ _ Hids Hi) as (id & Hid & Pid).
  destruct (Forall2_lookup_l _ _ _ _ _ Hrats Hi) as (r & Hr & Pr).
  exists id, r. repeat split; try assumption.
  exact (lookup_map (fun l => tokenize_cell (reviewText l)) _ _ _ Hi).
Qed.

End WithLibraries.

Import Toy.

Example readCSV_toy :
  readCSV "toy.csv"
  = Ok ([1; 3]%Z, [Tokens ["good"; "product"]; Tokens ["good"; "item"]], [5; 4]%Z).
Proof. reflexivity. Qed.

Example readCSV_numeric : readCSV "numeric.csv" = Ok ([7]%Z, [Str ""], [3]%Z).
Proof. reflexivity. Qed.

Lemma readCSV_drops_empty_reviews_witness :
  let kept := List.filter (fun r => negb (empty_or_missing r)) toy_frame in
  length [Tokens ["good"; "product"]; Tokens ["good"; "item"]]
  = (length toy_frame - length (List.filter empty_or_missing toy_frame))%nat /\
  Forall2 (fun line i => py_int (item_id line) = Ok i) kept [1; 3]%Z /\
  Forall2 (fun line r => py_int (rating line) = Ok r) kept [5; 4]%Z /\
  Forall2 (fun line rev =>
             match reviewText line with
             | CStr s => rev = Tokens (word_tokenize (lower s))
             | _ => rev = Str ""
             end)
          kept [Tokens ["good"; "product"]; Tokens ["good"; "item"]].
Proof.
  apply (readCSV_drops_empty_reviews "toy.csv" toy_frame); reflexivity.
Defined.

Lemma readCSV_parallel_lists_witness :
  length [1; 3]%Z = length [Tokens ["good"; "product"]; Tokens ["good"; "item"]] /\
  length [Tokens ["good"; "product"]; Tokens ["good"; "item"]] = length [5; 4]%Z /\
  exists df,
    read_csv "toy.csv" = Ok df /\
    let kept := List.filter (fun r => negb (empty_or_missing r)) df in
    length kept = length [Tokens ["good"; "product"]; Tokens ["good"; "item"]] /\
    forall (i : nat) (line : row),
      kept !! i = Some line ->
      exists id r,
        [1; 3]%Z !! i = Some id /\ py_int (item_id line) = Ok id /\
        [5; 4]%Z !! i = Some r /\ py_int (rating line) = Ok r /\
        [Tokens ["good"; "product"]; Tokens ["good"; "item"]] !! i
        = Some (tokenize_cell (reviewText line)).
Proof.
  apply (readCSV_parallel_lists "toy.csv"). reflexivity.
Defined.

(** C5, as stated, fails: the one row of the numeric file is kept, and its
    review is the empty string, which is the tokenization of no text. *)
Lemma numeric_review_not_tokenized : ~ loads_tokenized "numeric.csv".
Proof.
  intros Hclaim.
  destruct (Hclaim numeric_frame [7]%Z [Str ""] [3]%Z eq_refl eq_refl)
    as (_ & _ & _ & Hrev).
  apply Forall2_cons_1 in Hrev as [(text & _ & Habs) _].
  discriminate Habs.
Qed.

End LoaderFacts.

(** ** The rating predictor *)

Module PredictorFacts.

Lemma Qltb_lt (a b : Q) : Qltb a b = true <-> (a < b)%Q.
Proof.
  unfold Qltb. rewrite negb_true_iff. split.
  - intros Hb. apply Qnot_le_lt. intros Hle.
    apply Qle_bool_iff in Hle. congruence.
  - intros Hlt. destruct (Qle_bool b a) eqn:Hb; [|reflexivity].
    apply Qle_bool_iff in Hb. exfalso. exact (Qlt_not_le _ _ Hlt Hb).
Qed.

Section Sweep.

Context `{Sklearn} `{Scipy}.
Variables (train_x test_x : matrix) (train_y test_y : list Z).

Local Abbreviation candidate := (Predictor.candidate train_x test_x train_y test_y).
Local Abbreviation swept := (Predictor.swept train_x test_x train_y test_y).

Lemma try_C_candidate (st : Best) (C : Q) :
  try_C train_x test_x train_y test_y st C
  = match candidate C with
    | Ok (model, acc, r) =>
        if Qltb acc 1 && Qle_bool acc (minAccuracy st)
        then Ok {| minAccuracy := acc; bestModel := Some model; best_pearsonr := r |}
        else Ok st
    | Raise e => Raise e
    end.
Proof.
  unfold try_C, Predictor.candidate. unfold_bind.
  destruct (Ridge_fit 42 C train_x train_y) as [model|e]; [|reflexivity].
  destruct (Ridge_predict model test_x) as [y_pred|e]; [|reflexivity].
  destruct (MAE test_y y_pred) as [acc|e]; [|reflexivity].
  destruct (pearsonr test_y y_pred) as [p|e]; reflexivity.
Qed.

Lemma candidate_fit (C : Q) (model : Ridge) (acc : Q) (r : npfloat) :
  candidate C = Ok (model, acc, r) ->
  Ridge_fit 42 C train_x train_y = Ok model /\
  heldout_MAE test_x test_y model = Ok acc.
Proof.
  unfold Predictor.candidate, heldout_MAE. unfold_bind.
  destruct (Ridge_fit 42 C train_x train_y) as [m|e]; [|discriminate].
  destruct (Ridge_predict m test_x) as [y_pred|e] eqn:Hp; [|discriminate].
  destruct (MAE test_y y_pred) as [a|e] eqn:Ha; [|discriminate].
  destruct (pearsonr test_y y_pred) as [p|e]; [|discriminate].
  intros [= -> -> _]. rewrite Hp. auto.
Qed.

Lemma try_C_swept (seen : list Q) (st st' : Best) (C : Q) :
  swept seen st ->
  try_C train_x test_x train_y test_y st C = Ok st' ->
  swept (seen ++ [C]) st'.
Proof.
  intros (Hle & Hall & Hbest) Hstep.
  rewrite try_C_candidate in Hstep.
  destruct (candidate C) as [[[model acc] r]|e] eqn:Hcand; [|discriminate].
  assert (Hkeep : (minAccuracy st <= acc)%Q -> swept (seen ++ [C]) st).
  { intros Hacc. split; [exact Hle|]. split.
    - intros C' [HC'| [<- | []]]%in_app_or; [auto|]. exists model, acc, r. auto.
    - destruct (bestModel st); [|exact Hbest].
      destruct Hbest as (Hlt & C0 & rb & HC0 & Hc0). split; [exact Hlt|].
      exists C0, rb. split; [apply in_or_app; auto | exact Hc0]. }
  destruct (Qltb acc 1) eqn:Hlt1; simpl in Hstep.
  - destruct (Qle_bool acc (minAccuracy st)) eqn:Hlemin.
    + apply Qltb_lt in Hlt1. apply Qle_bool_iff in Hlemin.
      injection Hstep as <-. split; [simpl; by apply Qlt_le_weak|]. split.
      * intros C' [HC'| [<- | []]]%in_app_or; simpl.
        -- destruct (Hall C' HC') as (m' & a' & r' & Hc' & Ha').
           exists m', a', r'. split; [exact Hc'|].
           by apply Qle_trans with (minAccuracy st).
        -- exists model, acc, r. split; [exact Hcand | apply Qle_refl].
      * simpl. split; [exact Hlt1|]. exists C, r. split; [|exact Hcand].
        apply in_or_app. right. by left.
    + injection Hstep as <-. apply Hkeep.
      apply Qlt_le_weak, Qnot_le_lt. intros Habs.
      apply Qle_bool_iff in Habs. congruence.
  - injection Hstep as <-. apply Hkeep.
    apply Qle_trans with 1%Q; [exact Hle|].
    apply Qnot_lt_le. intros Habs. apply Qltb_lt in Habs. congruence.
Qed.

Lemma sweep_swept (l seen : list Q) (st st' : Best) :
  swept seen st ->
  for_each (try_C train_x test_x train_y test_y) l st = Ok st' ->
  swept (seen ++ l) st'.
Proof.
  revert seen st. induction l as [|C l IH]; intros seen st Hinv Hrun; simpl in Hrun.
  - injection Hrun as <-. by rewrite app_nil_r.
  - unfold bind in Hrun.
    destruct (try_C train_x test_x train_y test_y st C) as [st1|e] eqn:Hstep;
      [|discriminate].
    replace (seen ++ C :: l)%list with ((seen ++ [C]) ++ l)%list
      by (rewrite <- app_assoc; reflexivity).
    eapply IH; [|exact Hrun]. eapply try_C_swept; eassumption.
Qed.

Lemma sweep_raises (l : list Q) (st : Best) (e : PyErr) :
  for_each (try_C train_x test_x train_y test_y) l st = Raise e ->
  exists C, In C l /\ candidate C = Raise e.
Proof.
  revert st. induction l as [|C l IH]; intros st Hrun; simpl in Hrun; [discriminate|].
  unfold bind in Hrun.
  destruct (try_C train_x test_x train_y test_y st C) as [st1|e1] eqn:Hstep.
  - destruct (IH _ Hrun) as (C' & HC' & Hc'). exists C'. split; [by right | exact Hc'].
  - injection Hrun as ->. exists C. split; [by left|].
    rewrite try_C_candidate in Hstep.
    destruct (candidate C) as [[[m a] r]|e2]; [|congruence].
    destruct (Qltb a 1 && Qle_bool a (minAccuracy st)); discriminate.
Qed.

(** C1: [buildRatingPredictor] fits one ridge regressor for each of the
    nine strengths of [listC]. When it returns a model, that model is one
    of the nine, its held-out mean absolute error is below 1 and no
    candidate has a smaller one; when it returns [None], every candidate
    has an error of at least 1. It raises only what a candidate raises. *)
Theorem buildRatingPredictor_selects_minimal_MAE :
  listC = [1 # 10000; 1 # 1000; 1 # 100; 1 # 10; 1; 10; 100; 1000; 10000]%Q /\
  match buildRatingPredictor train_x test_x train_y test_y with
  | Ok (Some best) =>
      exists C acc,
        In C listC /\
        Ridge_fit 42 C train_x train_y = Ok best /\
        heldout_MAE test_x test_y best = Ok acc /\
        (acc < 1)%Q /\
        forall C', In C' listC ->
          exists model' acc',
            Ridge_fit 42 C' train_x train_y = Ok model' /\
            heldout_MAE test_x test_y model' = Ok acc' /\
            (acc <= acc')%Q
  | Ok None =>
      forall C', In C' listC ->
        exists model' acc',
          Ridge_fit 42 C' train_x train_y = Ok model' /\
          heldout_MAE test_x test_y model' = Ok acc' /\
          ~ (acc' < 1)%Q
  | Raise e => exists C, In C listC /\ candidate C = Raise e
  end.
Proof.
  split; [reflexivity|].
  unfold buildRatingPredictor. unfold_bind.
  set (init := {| minAccuracy := 1; bestModel := None; best_pearsonr := Fin (35 # 100) |}).
  destruct (for_each _ listC init) as [st|e] eqn:Hrun.
  - assert (Hinit : swept [] init).
    { split; [apply Qle_refl|]. split; [intros C []|reflexivity]. }
    pose proof (sweep_swept listC [] init st Hinit Hrun) as (Hle & Hall & Hbest).
    simpl app in Hall, Hbest.
    destruct (bestModel st) as [best|].
    + destruct Hbest as (Hlt & C & r & HC & Hcand).
      apply candidate_fit in Hcand as [Hfit Hmae].
      exists C, (minAccuracy st). repeat split; try assumption.
      intros C' HC'. destruct (Hall C' HC') as (m' & a' & r' & Hc' & Ha').
      apply candidate_fit in Hc' as [Hfit' Hmae']. exists m', a'. auto.
    + intros C' HC'. destruct (Hall C' HC') as (m' & a' & r' & Hc' & Ha').
      apply candidate_fit in Hc' as [Hfit' Hmae']. exists m', a'.
      repeat split; try assumption.
      rewrite Hbest in Ha'. by apply Qle_not_lt.
  - by apply sweep_raises in Hrun.
Qed.

End Sweep.

End PredictorFacts.

(** ** The principal-component projection *)

Module UserFactorsFacts.

Lemma dot_rows_length (x : list Q) (components_ : list (list Q)) :
  length (map (Np.dot x) components_) = length components_.
Proof. apply length_map. Qed.

(** [transform] leaves the object as it found it. *)
Lemma PCA_transform_self (self self' : PCA) (X : matrix) (Y : list (list Q)) :
  PCA_transform self X = Ok (self', Y) -> self' = self.
Proof.
  unfold PCA_transform. destruct (fitted self) as [[mean_ components_]|]; [|discriminate].
  unfold_bind. destruct (check_array _ X); [|discriminate]. by intros [= <- _].
Qed.

Lemma check_array_length (n : nat) (X : matrix) (M : list (list Q)) :
  check_array n X = Ok M -> length M = length X.
Proof.
  unfold check_array. destruct (mapM (mapM as_finite) X) as [M'|] eqn:HM; [|discriminate].
  destruct (forallb _ M'); [|discriminate]. intros [= <-].
  symmetry. by eapply length_mapM.
Qed.

Lemma PCA_transform_shape (self self' : PCA) (X : matrix) (Y : list (list Q))
  (mean_ : list Q) (components_ : list (list Q)) :
  fitted self = Some (mean_, components_) ->
  PCA_transform self X = Ok (self', Y) ->
  length Y = length X /\ Forall (fun y => length y = length components_) Y.
Proof.
  unfold PCA_transform. intros ->. unfold_bind.
  destruct (check_array _ X) as [M|] eqn:HM; [|discriminate]. intros [= _ <-].
  rewrite !length_map. split; [by eapply check_array_length|].
  apply Forall_map, Forall_map, Forall_forall. intros x _. apply dot_rows_length.
Qed.

(** What [runPCAMatrix] hands back: the projections of the users, and
    nothing of the object that produced them. *)
Lemma runPCAMatrix_returns_projections `{SklearnPCA}
  (user_reps : list (string * list npfloat)) (v_matrix : list (list Q)) :
  runPCAMatrix user_reps = Ok v_matrix <->
  exists user_PCA,
    PCA_fit (PCA_new 3) (values user_reps) = Ok user_PCA /\
    PCA_transform user_PCA (values user_reps) = Ok (user_PCA, v_matrix).
Proof.
  unfold runPCAMatrix. unfold_bind. split.
  - destruct (PCA_fit _ _) as [p|]; [|discriminate].
    destruct (PCA_transform p _) as [[p' Y]|] eqn:Ht; [|discriminate].
    intros [= ->]. exists p. split; [reflexivity|].
    by rewrite (PCA_transform_self _ _ _ _ Ht) in Ht.
  - intros (p & -> & ->). reflexivity.
Qed.

Import Toy.

(** C6, the code at a concrete input: for the six users the call returns
    their six projections and nothing else; the fitted object is a local
    of the function and is gone when it returns. *)
Theorem runPCAMatrix_six_users :
  runPCAMatrix six_users
  = Ok [[3; 0; 0]; [-3; 0; 0]; [0; 2; 0]; [0; -2; 0]; [0; 0; 1]; [0; 0; -1]]%Q.
Proof. reflexivity. Qed.

End UserFactorsFacts.

(** ** The main script *)

Module MainFacts.


Section WithLibraries.

Context `{Pandas} `{Builtins} `{NLTK} `{Gensim} `{Sklearn} `{Scipy}.


(** With two positional arguments the script runs on them. *)
Lemma right_arity_runs_on_given_files (argv : list string) :
  length argv = 3%nat ->
  main argv = Stage1 (stage_1 (nth 1 argv "") (nth 2 argv "")).
Proof. intros Hlen. unfold main, select_files. by rewrite Hlen. Qed.

Lemma train_if_unmatched (pattern trial_file : string) (min_count : Z)
  (training_reviews trial_reviews : list review) (env : Env) :
  str_in pattern trial_file = false ->
  train_if pattern trial_file min_count training_reviews trial_reviews env = Ok env.
Proof. intros Hp. unfold train_if. by rewrite Hp. Qed.

(** C10: when the trial file's name has none of the three substrings in
    it, stage 1.3 binds neither model, reading [train_w2v_model] at the
    feature extraction raises [NameError], and that, once the two files
    are loaded, is how the run ends: no usage or configuration error is
    reported. *)
Theorem unmatched_trial_file_raises_NameError (training_file trial_file : string) :
  str_in "food_" trial_file = false ->
  str_in "music_" trial_file = false ->
  str_in "musicAndPetsup_" trial_file = false ->
  (forall training_reviews trial_reviews,
      stage_1_3 trial_file training_reviews trial_reviews unbound = Ok unbound) /\
  (forall training_data trial_data,
      stage_1_4 training_data trial_data unbound
      = Raise (NameError "train_w2v_model")) /\
  stage_1 training_file trial_file
  = (training_data ← readCSV training_file;
     trial_data ← readCSV trial_file;
     Raise (NameError "train_w2v_model")) /\
  (forall argv training_data trial_data,
      select_files argv = Run training_file trial_file ->
      readCSV training_file = Ok training_data ->
      readCSV trial_file = Ok trial_data ->
      main argv = Stage1 (Raise (NameError "train_w2v_model"))).
Proof.
  intros Hfood Hmusic Hpets.
  assert (H13 : forall a b, stage_1_3 trial_file a b unbound = Ok unbound).
  { intros a b. unfold stage_1_3. unfold_bind. by rewrite !train_if_unmatched. }
  assert (Hrun : stage_1 training_file trial_file
               = (training_data ← readCSV training_file;
                  trial_data ← readCSV trial_file;
                  Raise (NameError "train_w2v_model"))).
  { unfold stage_1. unfold_bind.
    destruct (readCSV training_file) as [training_data|]; [|reflexivity].
    destruct (readCSV trial_file) as [trial_data|]; [|reflexivity].
    by rewrite H13. }
  repeat split; [exact H13 | exact Hrun |].
  intros argv training_data trial_data Hargv Htrain Htrial.
  unfold main. rewrite Hargv, Hrun. unfold_bind. by rewrite Htrain, Htrial.
Qed.

End WithLibraries.

Import Toy.

Example sweep_returns_smallest_error :
  buildRatingPredictor [[Fin 0]] [[Fin 0]; [Fin 0]] [3]%Z [3; 3]%Z = Ok (Some (1 # 10000)).
Proof. reflexivity. Qed.

Example sweep_returns_no_model :
  buildRatingPredictor [[Fin 0]] [[Fin 0]; [Fin 0]] [3]%Z [5; 5]%Z = Ok None.
Proof. reflexivity. Qed.


Lemma unmatched_trial_file_raises_NameError_witness :
  main ["a3_kadakia_111304945.py"; "toy.csv"; "toy.csv"]
  = Stage1 (Raise (NameError "train_w2v_model")).
Proof.
  eapply (unmatched_trial_file_raises_NameError "toy.csv" "toy.csv");
    reflexivity.
Defined.

End MainFacts.

(** * Further properties of the code *)

(** ** Substring tests and the extractor *)

Module MoreLoaderFacts.

Import FeaturesFacts LoaderFacts.

Lemma append_cons (c : ascii) (s t : string) :
  (String c s ++ t)%string = String c (s ++ t)%string.
Proof. reflexivity. Qed.

Lemma prefix_app (sub s : string) :
  String.prefix sub s = true <-> exists post, s = (sub ++ post)%string.
Proof.
  revert s. induction sub as [|c sub IH]; intros s; simpl.
  - split; [intros _; by exists s | by destruct s].
  - destruct s as [|d s]; simpl.
    + split; [discriminate | intros [post Hp]; discriminate].
    + destruct (Ascii.ascii_dec c d) as [->|Hne].
      * rewrite IH. split; intros [post Hp]; exists post;
          rewrite append_cons in *; congruence.
      * split; [discriminate|]. intros [post Hp].
        rewrite append_cons in Hp. congruence.
Qed.

(** X1: [str_in sub s] holds exactly when [sub] occurs in [s], that is
    when [s] is some text, then [sub], then some text. *)
Theorem str_in_occurs (sub s : string) :
  str_in sub s = true <-> exists pre post, s = (pre ++ sub ++ post)%string.
Proof.
  induction s as [|c s IH]; cbn [str_in].
  - rewrite orb_false_r, prefix_app. split.
    + intros [post Hp]. by exists ""%string, post.
    + intros (pre & post & Hp). destruct pre as [|d pre]; [by exists post|].
      discriminate.
  - rewrite orb_true_iff, prefix_app, IH. split.
    + intros [[post Hp] | (pre & post & Hp)].
      * by exists ""%string, post.
      * exists (String c pre), post. rewrite append_cons. by rewrite Hp.
    + intros (pre & post & Hp). destruct pre as [|d pre].
      * left. by exists post.
      * right. exists pre, post. rewrite append_cons in Hp. congruence.
Qed.

Lemma getFeatures_map (E : Word2Vec) (reviews : list review) :
  getFeatures E reviews = map (review_features E) reviews.
Proof. unfold getFeatures. by rewrite fold_append. Qed.



End MoreLoaderFacts.

(** ** The sweep: ties, an empty held-out set, and the predictions *)

Module MorePredictorFacts.

Import PredictorFacts.

Section Sweep.

Context `{Sklearn} `{Scipy}.
Variables (train_x test_x : matrix) (train_y test_y : list Z).

Local Abbreviation candidate := (Predictor.candidate train_x test_x train_y test_y).
Local Abbreviation swept := (Predictor.swept train_x test_x train_y test_y).
Local Abbreviation later_worse := (Ties.later_worse train_x test_x train_y test_y).
Local Abbreviation try_C := (Predictor.try_C train_x test_x train_y test_y).

Lemma try_C_later_worse (seen : list Q) (st st' : Best) (C : Q) :
  swept seen st -> later_worse seen st ->
  try_C st C = Ok st' ->
  later_worse (seen ++ [C]) st'.
Proof.
  intros (Hle & _ & Hbest) Hlater Hstep.
  rewrite try_C_candidate in Hstep.
  destruct (Predictor.candidate _ _ _ _ C) as [[[model acc] r]|e] eqn:Hcand;
    [|discriminate].
  destruct (Qltb acc 1 && Qle_bool acc (minAccuracy st)) eqn:Hupd.
  - injection Hstep as <-. unfold Ties.later_worse. simpl.
    exists seen, C, [], r. repeat split; [exact Hcand | intros C' []].
  - injection Hstep as <-. unfold Ties.later_worse in *.
    destruct (bestModel st) as [best|]; [|exact I].
    destruct Hbest as [Hlt1 _].
    destruct Hlater as (l1 & C0 & l2 & r0 & -> & Hc0 & Hl2).
    exists l1, C0, (l2 ++ [C])%list, r0.
    split; [by rewrite <- app_assoc|]. split; [exact Hc0|].
    intros C' [HC' | [<- | []]]%in_app_or; [auto|].
    exists model, acc, r. split; [exact Hcand|].
    apply andb_false_iff in Hupd as [Hge | Hgt].
    + apply Qlt_le_trans with 1%Q; [exact Hlt1|].
      apply Qnot_lt_le. intros Habs. apply Qltb_lt in Habs. congruence.
    + apply Qnot_le_lt. intros Habs. apply Qle_bool_iff in Habs. congruence.
Qed.

Lemma sweep_later_worse (l seen : list Q) (st st' : Best) :
  swept seen st -> later_worse seen st ->
  for_each try_C l st = Ok st' ->
  later_worse (seen ++ l) st'.
Proof.
  revert seen st. induction l as [|C l IH]; intros seen st Hinv Hlater Hrun;
    simpl in Hrun.
  - injection Hrun as <-. by rewrite app_nil_r.
  - unfold bind in Hrun.
    destruct (Predictor.try_C _ _ _ _ st C) as [st1|e] eqn:Hstep; [|discriminate].
    replace (seen ++ C :: l)%list with ((seen ++ [C]) ++ l)%list
      by (rewrite <- app_assoc; reflexivity).
    eapply IH; [| |exact Hrun].
    + eapply try_C_swept; eassumption.
    + eapply try_C_later_worse; eassumption.
Qed.

Lemma swept_init :
  swept [] {| minAccuracy := 1; bestModel := None; best_pearsonr := Fin (35 # 100) |}.
Proof. split; [apply Qle_refl|]. split; [intros C []|reflexivity]. Qed.

(** X4: on a tie the later candidate wins. The model that is returned
    comes from a strength of [listC] after which every strength gave a
    strictly larger held-out error. *)
Theorem buildRatingPredictor_keeps_last_minimum (best : Ridge) :
  buildRatingPredictor train_x test_x train_y test_y = Ok (Some best) ->
  exists l1 C l2 acc,
    listC = (l1 ++ C :: l2)%list /\
    Ridge_fit 42 C train_x train_y = Ok best /\
    heldout_MAE test_x test_y best = Ok acc /\
    forall C', In C' l2 ->
      exists model' acc',
        Ridge_fit 42 C' train_x train_y = Ok model' /\
        heldout_MAE test_x test_y model' = Ok acc' /\
        (acc < acc')%Q.
Proof.
  unfold buildRatingPredictor. unfold_bind.
  destruct (for_each _ listC _) as [st|e] eqn:Hrun; [|discriminate].
  intros [= Hbest].
  pose proof (sweep_later_worse listC [] _ st swept_init I Hrun) as Hlater.
  unfold Ties.later_worse in Hlater. rewrite Hbest in Hlater.
  destruct Hlater as (l1 & C & l2 & r & Hsplit & Hcand & Hl2).
  apply candidate_fit in Hcand as [Hfit Hmae].
  exists l1, C, l2, (minAccuracy st). repeat split; try assumption.
  intros C' HC'. destruct (Hl2 C' HC') as (m' & a' & r' & Hc' & Hlt).
  apply candidate_fit in Hc' as [Hfit' Hmae']. exists m', a'. auto.
Qed.

(** X5: with no held-out rating the sweep returns nothing: the first
    candidate is fitted and asked for its predictions, and the mean
    absolute error of no sample is a [ValueError]. *)
Theorem buildRatingPredictor_empty_heldout :
  buildRatingPredictor train_x test_x train_y []
  = (model ← Ridge_fit 42 (1 # 10000) train_x train_y;
     _ ← Ridge_predict model test_x;
     Raise ValueError).
Proof.
  unfold buildRatingPredictor. simpl. unfold Predictor.try_C. unfold_bind.
  destruct (Ridge_fit 42 (1 # 10000) train_x train_y) as [model|e]; [|reflexivity].
  destruct (Ridge_predict model test_x) as [y_pred|e]; [|reflexivity].
  unfold MAE. simpl. by rewrite orb_true_r.
Qed.

End Sweep.

Section Predictions.

Context `{Sklearn} `{Scipy}.
Variables (train_x test_x : matrix) (train_y test_y : list Z).

Lemma candidate_predictions (C : Q) (model : Ridge) (acc : Q) (r : npfloat) :
  candidate train_x test_x train_y test_y C = Ok (model, acc, r) ->
  exists y_pred, Ridge_predict model test_x = Ok y_pred /\ MAE test_y y_pred = Ok acc.
Proof.
  unfold candidate. unfold_bind.
  destruct (Ridge_fit 42 C train_x train_y) as [m|e]; [|discriminate].
  destruct (Ridge_predict m test_x) as [y_pred|e] eqn:Hp; [|discriminate].
  destruct (MAE test_y y_pred) as [a|e] eqn:Ha; [|discriminate].
  destruct (pearsonr test_y y_pred) as [p|e]; [|discriminate].
  intros [= -> -> _]. eauto.
Qed.

(** X6: when stage 1.5 has predictions, they are those of a model of the
    sweep and their mean absolute error on the held-out ratings is below
    1. It fails with what a candidate raised, or, when every candidate
    has an error of at least 1, with the [AttributeError] of calling
    [predict] on [None]. *)
Theorem stage_1_5_outcomes :
  match stage_1_5 (train_x, test_x, train_y, test_y) with
  | Ok y_pred =>
      exists C best acc,
        In C listC /\
        Ridge_fit 42 C train_x train_y = Ok best /\
        Ridge_predict best test_x = Ok y_pred /\
        MAE test_y y_pred = Ok acc /\ (acc < 1)%Q
  | Raise e =>
      (exists C, In C listC /\ candidate train_x test_x train_y test_y C = Raise e) \/
      (e = AttributeError "predict" /\
       forall C, In C listC ->
         exists model acc,
           Ridge_fit 42 C train_x train_y = Ok model /\
           heldout_MAE test_x test_y model = Ok acc /\ ~ (acc < 1)%Q)
  end.
Proof.
  unfold stage_1_5, buildRatingPredictor. unfold_bind.
  destruct (for_each _ listC _) as [st|e] eqn:Hrun.
  - pose proof (sweep_swept _ _ _ _ listC [] _ st
                  (MorePredictorFacts.swept_init _ _ _ _) Hrun)
      as (Hle & Hall & Hbest).
    simpl app in Hall, Hbest.
    destruct (bestModel st) as [best|].
    + destruct Hbest as (Hlt & C & r & HC & Hcand).
      destruct (candidate_predictions _ _ _ _ Hcand) as (y_pred & Hp & Hmae).
      apply candidate_fit in Hcand as [Hfit _]. rewrite Hp.
      exists C, best, (minAccuracy st). auto.
    + right. split; [reflexivity|]. intros C HC.
      destruct (Hall C HC) as (m' & a' & r' & Hc' & Ha').
      apply candidate_fit in Hc' as [Hfit' Hmae']. exists m', a'.
      repeat split; try assumption. rewrite Hbest in Ha'. by apply Qle_not_lt.
  - left. by apply sweep_raises in Hrun.
Qed.

End Predictions.

Import Toy.

Lemma buildRatingPredictor_keeps_last_minimum_witness :
  exists l1 C l2 acc,
    listC = (l1 ++ C :: l2)%list /\
    @Ridge_fit flat_sklearn 42 C [[Fin 0]] [3]%Z = Ok 10000%Q /\
    @heldout_MAE flat_sklearn [[Fin 0]; [Fin 0]] [3; 3]%Z 10000%Q = Ok acc /\
    forall C', In C' l2 ->
      exists model' acc',
        @Ridge_fit flat_sklearn 42 C' [[Fin 0]] [3]%Z = Ok model' /\
        @heldout_MAE flat_sklearn [[Fin 0]; [Fin 0]] [3; 3]%Z model' = Ok acc' /\
        (acc < acc')%Q.
Proof.
  apply (@buildRatingPredictor_keeps_last_minimum flat_sklearn toy_scipy
           [[Fin 0]] [[Fin 0]; [Fin 0]] [3]%Z [3; 3]%Z 10000%Q).
  reflexivity.
Defined.

End MorePredictorFacts.

(** ** The main script: which models are trained, shapes, spot checks *)

Module MoreMainFacts.

Import FeaturesFacts LoaderFacts MoreLoaderFacts.

Section WithLibraries.

Context `{Pandas} `{Builtins} `{NLTK} `{Gensim}.

Lemma stage_1_3_cases
  (trial_file : string) (training_reviews trial_reviews : list review) (env : Env) :
  stage_1_3 trial_file training_reviews trial_reviews unbound = Ok env ->
  match effective_min_count trial_file with
  | Some min_count =>
      exists train test,
        trainWord2VecModel training_reviews min_count = Ok train /\
        trainWord2VecModel trial_reviews min_count = Ok test /\
        env = {| train_w2v_model := Some train; test_w2v_model := Some test |}
  | None => env = unbound
  end.
Proof.
  unfold stage_1_3, train_if, effective_min_count. unfold_bind.
  destruct (str_in "food_" trial_file), (str_in "music_" trial_file),
    (str_in "musicAndPetsup_" trial_file);
    repeat match goal with
           | |- context [match trainWord2VecModel ?a ?b with _ => _ end] =>
               destruct (trainWord2VecModel a b) eqn:?
           end;
    intros Henv; try discriminate; injection Henv as <-; eauto.
Qed.

(** X7: when stage 1.3 ends without an exception, the two names hold the
    models trained with the [min_count] of the last of the three
    substrings that occurs in the trial file's name (20 for
    "musicAndPetsup_", else 10 for "music_", else 5 for "food_"), the
    first on the training reviews and the second on the trial reviews;
    with none of the substrings both names stay unbound. *)
Theorem stage_1_3_last_match_wins
  (trial_file : string) (training_reviews trial_reviews : list review) (env : Env) :
  stage_1_3 trial_file training_reviews trial_reviews unbound = Ok env ->
  match effective_min_count trial_file with
  | Some min_count =>
      exists train test,
        trainWord2VecModel training_reviews min_count = Ok train /\
        trainWord2VecModel trial_reviews min_count = Ok test /\
        env = {| train_w2v_model := Some train; test_w2v_model := Some test |}
  | None => env = unbound
  end.
Proof. apply stage_1_3_cases. Qed.

(** X8: when both files are loaded and both model names are bound,
    stage 1.4 raises at most one thing, the [OverflowError] of
    [np.asarray] for a rating that does not fit 64 bits; when every
    rating fits, it returns the ratings as they are, a training matrix
    with one row of 128 entries for each training rating, and a trial
    matrix with one for each trial rating. *)
Theorem stage_1_4_shapes
  (training_file trial_file : string)
  (training_data trial_data : list Z * list review * list Z)
  (env : Env) (train test : Word2Vec) :
  readCSV training_file = Ok training_data ->
  readCSV trial_file = Ok trial_data ->
  train_w2v_model env = Some train ->
  test_w2v_model env = Some test ->
  if forallb fits_int64 (snd training_data) && forallb fits_int64 (snd trial_data)
  then
    exists train_x test_x,
      stage_1_4 training_data trial_data env
      = Ok (train_x, test_x, snd training_data, snd trial_data) /\
      length train_x = length (snd training_data) /\
      length test_x = length (snd trial_data) /\
      Forall (fun row => length row = 128%nat) train_x /\
      Forall (fun row => length row = 128%nat) test_x
  else stage_1_4 training_data trial_data env = Raise OverflowError.
Proof.
  intros Htrain Htrial Hm1 Hm2.
  destruct training_data as [[ids1 revs1] rats1], trial_data as [[ids2 revs2] rats2].
  apply readCSV_inv in Htrain as (df1 & _ & _ & Hr1 & ->).
  apply readCSV_inv in Htrial as (df2 & _ & _ & Hr2 & ->).
  apply Forall2_length in Hr1, Hr2.
  unfold stage_1_4, asarray_int. rewrite Hm1, Hm2. simpl. unfold_bind.
  destruct (forallb fits_int64 rats1); simpl; [|reflexivity].
  destruct (forallb fits_int64 rats2); simpl; [|reflexivity].
  eexists _, _. split; [reflexivity|].
  rewrite !getFeatures_map, !length_map. repeat split; try assumption;
    apply Forall_map, Forall_forall; intros r _; apply review_features_length.
Qed.

End WithLibraries.

Lemma mem_index (case : Z) (l : list Z) :
  mem case l = true ->
  exists pos : nat,
    index case l = Some pos /\ l !! pos = Some case /\
    forall j : nat, (j < pos)%nat -> l !! j <> Some case.
Proof.
  unfold mem. induction l as [|y l IH]; simpl; [discriminate|].
  rewrite (Z.eqb_sym case y). destruct (Z.eqb_spec y case) as [->|Hne]; simpl.
  - intros _. exists 0%nat. repeat split. intros j Hj. lia.
  - intros Hmem. destruct (IH Hmem) as (pos & -> & Hpos & Hfirst).
    exists (S pos). repeat split; [exact Hpos|].
    intros [|j] Hj; simpl; [congruence|]. apply Hfirst. lia.
Qed.

Lemma mem_false (case : Z) (l : list Z) : mem case l = false -> ~ In case l.
Proof.
  unfold mem. intros Hmem Hin.
  assert (existsb (Z.eqb case) l = true); [|congruence].
  apply existsb_exists. exists case. split; [exact Hin | apply Z.eqb_refl].
Qed.

Lemma check_case_right (trial_file : string) (item_ids : list Z)
  (reviews : list review) (ratings : list Z) (y_pred : list Q) (case : Z) :
  length ratings = length item_ids ->
  length y_pred = length item_ids ->
  exists out,
    check_case trial_file (item_ids, reviews, ratings) y_pred case = Some out /\
    Forall (line_is_right trial_file item_ids ratings y_pred) out.
Proof.
  intros Hr Hy. unfold check_case. destruct (mem case item_ids) eqn:Hmem.
  - destruct (mem_index _ _ Hmem) as (pos & -> & Hpos & Hfirst). simpl.
    pose proof (lookup_lt_Some _ _ _ Hpos) as Hlt.
    destruct (lookup_lt_is_Some_2 y_pred pos) as [p Hp]; [lia|].
    destruct (lookup_lt_is_Some_2 ratings pos) as [t Ht]; [lia|].
    rewrite Hp, Ht. simpl. eexists. split; [reflexivity|].
    repeat constructor. exists pos. auto.
  - eexists. split; [reflexivity|]. repeat constructor. by apply mem_false.
Qed.

Lemma check_cases_right (trial_file : string) (item_ids : list Z)
  (reviews : list review) (ratings : list Z) (y_pred : list Q) (testCases : list Z) :
  length ratings = length item_ids ->
  length y_pred = length item_ids ->
  exists out,
    check_cases trial_file (item_ids, reviews, ratings) y_pred testCases = Some out /\
    Forall (line_is_right trial_file item_ids ratings y_pred) out.
Proof.
  intros Hr Hy. induction testCases as [|case rest (more & Hmore & Hright)].
  - exists []. split; [reflexivity | constructor].
  - destruct (check_case_right trial_file item_ids reviews ratings y_pred case Hr Hy)
      as (out & Hout & Hline).
    exists (out ++ more)%list. cbn [check_cases]. rewrite Hout, Hmore.
    split; [reflexivity|]. by apply Forall_app.
Qed.

(** X9: when there is one prediction and one rating for each item id of
    the trial data, the spot checks raise no [IndexError], and every line
    they print is right: a predicted and a true value are those of the
    first row with the item id, and an id is reported as not in the file
    only when no row has it. *)
Theorem spot_checks_report_first_row (trial_file : string) (item_ids : list Z)
  (reviews : list review) (ratings : list Z) (y_pred : list Q) :
  length ratings = length item_ids ->
  length y_pred = length item_ids ->
  exists lines,
    spot_checks trial_file (item_ids, reviews, ratings) y_pred = Some lines /\
    Forall (line_is_right trial_file item_ids ratings y_pred) lines.
Proof.
  intros Hr Hy. unfold spot_checks.
  assert (Hblock : forall (b : bool) cases,
             exists out,
               (if b then check_cases trial_file (item_ids, reviews, ratings) y_pred cases
                else Some []) = Some out /\
               Forall (line_is_right trial_file item_ids ratings y_pred) out).
  { intros [|] cases; [by apply check_cases_right|].
    exists []. split; [reflexivity | constructor]. }
  destruct (Hblock (str_in "food_" trial_file) [548; 4258; 4766; 5800]%Z)
    as (food & -> & Hfood).
  destruct (Hblock (str_in "music_" trial_file) [329; 11419; 14023; 14912]%Z)
    as (music & -> & Hmusic).
  exists (food ++ music)%list. split; [reflexivity|]. by apply Forall_app.
Qed.

Import Toy ToyShop.

Example spot_checks_food :
  spot_checks "food_trial.csv" ([548; 7; 548]%Z, [], [4; 2; 1]%Z) [5; 3; 2]%Q
  = Some [Blank; Predicted 548 5 4;
          NotIn 4258 "food_trial.csv"; NotIn 4766 "food_trial.csv";
          NotIn 5800 "food_trial.csv"].
Proof. reflexivity. Qed.

Lemma spot_checks_report_first_row_witness :
  exists lines,
    spot_checks "food_trial.csv" ([548; 7; 548]%Z, [], [4; 2; 1]%Z) [5; 3; 2]%Q
    = Some lines /\
    Forall (line_is_right "food_trial.csv" [548; 7; 548]%Z [4; 2; 1]%Z [5; 3; 2]%Q)
           lines.
Proof.
  apply (spot_checks_report_first_row "food_trial.csv" [548; 7; 548]%Z []
           [4; 2; 1]%Z [5; 3; 2]%Q); reflexivity.
Defined.

Lemma stage_1_3_last_match_wins_witness :
  match effective_min_count "food_music_trial.csv" with
  | Some min_count =>
      exists train test,
        trainWord2VecModel [Tokens ["good"]] min_count = Ok train /\
        trainWord2VecModel [Tokens ["bad"]] min_count = Ok test /\
        {| train_w2v_model := Some good_space; test_w2v_model := Some good_space |}
        = {| train_w2v_model := Some train; test_w2v_model := Some test |}
  | None =>
      {| train_w2v_model := Some good_space; test_w2v_model := Some good_space |}
      = unbound
  end.
Proof.
  apply (stage_1_3_last_match_wins "food_music_trial.csv"
           [Tokens ["good"]] [Tokens ["bad"]]).
  reflexivity.
Defined.

Lemma stage_1_4_shapes_witness :
  exists train_x test_x,
    stage_1_4 ([1; 3]%Z, [Tokens ["good"; "product"]; Tokens ["good"; "item"]], [5; 4]%Z)
              ([548; 7; 548]%Z,
               [Tokens ["good"]; Tokens ["bad"; "item"]; Tokens ["bad"]], [4; 2; 1]%Z)
              {| train_w2v_model := Some good_space; test_w2v_model := Some empty_space |}
    = Ok (train_x, test_x, [5; 4]%Z, [4; 2; 1]%Z) /\
    length train_x = length [5; 4]%Z /\
    length test_x = length [4; 2; 1]%Z /\
    Forall (fun row => length row = 128%nat) train_x /\
    Forall (fun row => length row = 128%nat) test_x.
Proof.
  apply (@stage_1_4_shapes shop_pandas toy_builtins toy_nltk
           "food_train.csv" "food_trial.csv"
           ([1; 3]%Z, [Tokens ["good"; "product"]; Tokens ["good"; "item"]], [5; 4]%Z)
           ([548; 7; 548]%Z,
            [Tokens ["good"]; Tokens ["bad"; "item"]; Tokens ["bad"]], [4; 2; 1]%Z)
           {| train_w2v_model := Some good_space; test_w2v_model := Some empty_space |}
           good_space empty_space);
    reflexivity.
Defined.

(** A rating of 2^63 is read and kept by the loader, and is too large
    for [np.asarray]. *)
Example stage_1_4_overflow :
  stage_1_4 ([1]%Z, [Tokens ["good"]], [2 ^ 63]%Z) ([2]%Z, [Tokens ["bad"]], [3]%Z)
            {| train_w2v_model := Some good_space; test_w2v_model := Some good_space |}
  = Raise OverflowError.
Proof. reflexivity. Qed.

End MoreMainFacts.

(** ** The users of stage 2 *)

Module UsersFacts.

Import FeaturesFacts LoaderFacts MoreLoaderFacts.

Section WithLibraries.

Context `{Pandas} `{PyDict} `{Builtins} `{NLTK}.

Lemma dict_index_Some {V : Type} (d : list (cell * V)) (k : cell) (pos : nat) :
  dict_index d k = Some pos ->
  exists l1 k' v l2,
    d = (l1 ++ (k', v) :: l2)%list /\ length l1 = pos /\
    same_key k' k = true /\
    Forall (fun e => same_key (fst e) k = false) l1.
Proof.
  revert pos. induction d as [|[k' v] d IH]; intros pos; simpl; [discriminate|].
  destruct (same_key k' k) eqn:Hk.
  - intros [= <-]. exists [], k', v, d. repeat split; [exact Hk | constructor].
  - destruct (dict_index d k) as [p|] eqn:Hd; [|discriminate]. intros [= <-].
    destruct (IH p eq_refl) as (l1 & k1 & v1 & l2 & -> & <- & Hk1 & Hl1).
    exists ((k', v) :: l1), k1, v1, l2. repeat split; [exact Hk1|].
    constructor; assumption.
Qed.

Lemma dict_index_None {V : Type} (d : list (cell * V)) (k : cell) :
  dict_index d k = None -> Forall (fun e => same_key (fst e) k = false) d.
Proof.
  induction d as [|[k' v] d IH]; simpl; [constructor|].
  destruct (same_key k' k) eqn:Hk; [discriminate|].
  destruct (dict_index d k); [discriminate|]. intros _. constructor; auto.
Qed.

Lemma alter_middle {A : Type} (f : A -> A) (l1 l2 : list A) (x : A) :
  alter f (length l1) (l1 ++ x :: l2)%list = (l1 ++ f x :: l2)%list.
Proof.
  replace (length l1) with (length l1 + 0)%nat by lia. by rewrite alter_app_r.
Qed.

(** What one row does to the dictionary: a new user is added at the end
    with the row as the only record, or the row is added to the records
    of the first user with the same key. *)
Lemma add_user_row_inv (users users' : list (cell * UserLists)) (line : row) :
  add_user_row users line = Ok users' ->
  exists i r,
    py_int (item_id line) = Ok i /\ py_int (rating line) = Ok r /\
    let rev := tokenize_cell (reviewText line) in
    ((Forall (fun e => same_key (fst e) (user_id line) = false) users /\
      users' = (users ++ [(user_id line, ([i], [r], [rev]))])%list) \/
     (exists l1 k item_ids ratings reviews l2,
         users = (l1 ++ (k, (item_ids, ratings, reviews)) :: l2)%list /\
         same_key k (user_id line) = true /\
         Forall (fun e => same_key (fst e) (user_id line) = false) l1 /\
         users' = (l1 ++ (k, (item_ids ++ [i], ratings ++ [r], reviews ++ [rev]))
                      :: l2)%list)).
Proof.
  unfold add_user_row. unfold_bind.
  destruct (dict_index users (user_id line)) as [pos|] eqn:Hidx.
  - destruct (py_int (item_id line)) as [i|]; [|discriminate].
    destruct (py_int (rating line)) as [r|]; [|discriminate].
    intros [= <-]. exists i, r. repeat split. right.
    apply dict_index_Some in Hidx
      as (l1 & k & [[ids rats] revs] & l2 & -> & <- & Hk & Hl1).
    exists l1, k, ids, rats, revs, l2. repeat split; try assumption.
    by rewrite alter_middle.
  - destruct (py_int (item_id line)) as [i|]; [|discriminate].
    destruct (py_int (rating line)) as [r|]; [|discriminate].
    intros [= <-]. exists i, r. repeat split. left.
    split; [by apply dict_index_None|].
    by rewrite (alter_middle _ users []).
Qed.

Lemma add_user_row_returns (users : list (cell * UserLists)) (line : row) :
  (exists users', add_user_row users line = Ok users') <->
  (exists i, py_int (item_id line) = Ok i) /\ (exists r, py_int (rating line) = Ok r).
Proof.
  split.
  - intros [users' Hrun]. apply add_user_row_inv in Hrun as (i & r & Hi & Hr & _).
    eauto.
  - intros [[i Hi] [r Hr]]. unfold add_user_row. unfold_bind.
    destruct (dict_index users (user_id line)); rewrite Hi, Hr; eauto.
Qed.

Lemma add_user_rows_returns (rows : list row) (users : list (cell * UserLists)) :
  (exists users', for_each add_user_row rows users = Ok users') <->
  Forall (fun line => (exists i, py_int (item_id line) = Ok i) /\
                      (exists r, py_int (rating line) = Ok r)) rows.
Proof.
  revert users. induction rows as [|line rows IH]; intros users; simpl.
  - split; [constructor | eauto].
  - unfold bind. split.
    + intros [users' Hrun].
      destruct (add_user_row users line) as [users1|] eqn:Hstep; [|discriminate].
      constructor; [apply (proj1 (add_user_row_returns users line)); eauto
                   | apply (proj1 (IH users1)); eauto].
    + intros Hall. apply Forall_cons_1 in Hall as [Hline Hrows].
      apply (proj2 (add_user_row_returns users line)) in Hline as [users1 ->].
      by apply (proj2 (IH users1)).
Qed.

Lemma records_app (l1 l2 : list (cell * UserLists)) :
  records (l1 ++ l2) = (records l1 + records l2)%nat.
Proof. unfold records. apply sum_list_with_app. Qed.

Lemma add_user_row_parallel (users users' : list (cell * UserLists)) (line : row) :
  add_user_row users line = Ok users' ->
  Forall parallel users ->
  Forall parallel users' /\ records users' = S (records users).
Proof.
  intros Hrun Hpar.
  apply add_user_row_inv in Hrun as (i & r & _ & _ & [[_ ->] | Hold]).
  - split.
    + apply Forall_app. split; [exact Hpar|]. repeat constructor.
    + rewrite records_app. unfold records. simpl. lia.
  - destruct Hold as (l1 & k & ids & rats & revs & l2 & -> & _ & _ & ->).
    apply Forall_app in Hpar as [Hl1 Hl2].
    apply Forall_cons_1 in Hl2 as [(Ha & Hb & Hc) Hl2]. split.
    + apply Forall_app. split; [exact Hl1|]. constructor; [|exact Hl2].
      unfold parallel. rewrite !length_app. simpl. lia.
    + rewrite !records_app. unfold records, reviews_of. simpl.
      rewrite length_app. simpl. lia.
Qed.

Lemma add_user_rows_parallel (rows : list row) (users users' : list (cell * UserLists)) :
  for_each add_user_row rows users = Ok users' ->
  Forall parallel users ->
  Forall parallel users' /\ records users' = (records users + length rows)%nat.
Proof.
  revert users. induction rows as [|line rows IH]; intros users Hrun Hpar;
    simpl in Hrun.
  - injection Hrun as <-. split; [exact Hpar | simpl; lia].
  - unfold bind in Hrun.
    destruct (add_user_row users line) as [users1|] eqn:Hstep; [|discriminate].
    destruct (add_user_row_parallel _ _ _ Hstep Hpar) as [Hpar1 Hrec1].
    destruct (IH _ Hrun Hpar1) as [Hpar' Hrec']. split; [exact Hpar'|].
    rewrite Hrec', Hrec1. simpl. lia.
Qed.

(** The files are read one after the other; [dfs] are their frames. *)
Lemma add_files_inv (files : list string) (users users' : list (cell * UserLists)) :
  for_each add_file files users = Ok users' ->
  exists dfs,
    Forall2 (fun file df => read_csv file = Ok df) files dfs /\
    for_each add_user_row (concat (map kept_rows dfs)) users = Ok users'.
Proof.
  revert users. induction files as [|file files IH]; intros users Hrun; simpl in Hrun.
  - exists []. split; [constructor | exact Hrun].
  - unfold bind in Hrun.
    destruct (add_file users file) as [users1|] eqn:Hfile; [|discriminate].
    destruct (IH _ Hrun) as (dfs & Hread & Hrest).
    unfold add_file in Hfile. unfold_bind.
    destruct (read_csv file) as [df|] eqn:Hdf; [|discriminate].
    rewrite dropna_replace_empty in Hfile.
    exists (df :: dfs). split; [by constructor|]. simpl.
    clear -Hfile Hrest. unfold kept_rows at 1.
    revert users Hfile.
    induction (List.filter _ df) as [|line rows IHr]; intros users Hfile; simpl in *.
    + by injection Hfile as ->.
    + unfold bind in *.
      destruct (add_user_row users line) as [u1|]; [|discriminate]. by apply IHr.
Qed.

Lemma add_files_returns (files : list string) (users : list (cell * UserLists)) :
  (exists users', for_each add_file files users = Ok users') <->
  Forall (fun file => exists data, readCSV file = Ok data) files.
Proof.
  revert users. induction files as [|file files IH]; intros users; simpl.
  - split; [constructor | eauto].
  - unfold bind. split.
    + intros [users' Hrun].
      destruct (add_file users file) as [users1|] eqn:Hfile; [|discriminate].
      constructor; [|apply (proj1 (IH users1)); eauto].
      unfold add_file in Hfile. unfold_bind.
      destruct (read_csv file) as [df|] eqn:Hdf; [|discriminate].
      rewrite dropna_replace_empty in Hfile.
      eapply readCSV_returns; [exact Hdf|].
      apply (proj1 (add_user_rows_returns _ users)). eauto.
    + intros Hall. apply Forall_cons_1 in Hall as [[[[ids revs] rats] Hfile] Hfiles].
      apply readCSV_inv in Hfile as (df & Hdf & Hids & Hrats & _).
      assert (Hstep : exists users1, add_file users file = Ok users1).
      { unfold add_file. unfold_bind. rewrite Hdf, dropna_replace_empty.
        apply (proj2 (add_user_rows_returns _ users)). simpl in Hids, Hrats.
        revert ids rats Hids Hrats.
        induction (List.filter _ df) as [|line kept IHk]; intros ids rats Hids Hrats;
          [constructor|].
        apply Forall2_cons_inv_l in Hids as (i & ids' & Hi & Hids & ->).
        apply Forall2_cons_inv_l in Hrats as (r & rats' & Hr & Hrats & ->).
        constructor; [eauto | by eapply IHk]. }
      destruct Hstep as [users1 ->]. by apply (proj2 (IH users1)).
Qed.

(** X10: [getUserBackground] returns exactly when [readCSV] returns for
    each of the files. *)
Theorem getUserBackground_returns_iff (files : list string) :
  (exists users, getUserBackground files = Ok users) <->
  Forall (fun file => exists data, readCSV file = Ok data) files.
Proof. apply add_files_returns. Qed.

(** X11: in what [getUserBackground] returns, every user has three
    lists of one length with at least one record, and the records of all
    users together are as many as the rows of the files whose review text
    is neither empty nor missing. *)
Theorem getUserBackground_parallel_lists
  (files : list string) (users : list (cell * UserLists)) :
  getUserBackground files = Ok users ->
  Forall parallel users /\
  exists dfs,
    Forall2 (fun file df => read_csv file = Ok df) files dfs /\
    sum_list_with (fun e => length (reviews_of e)) users
    = length (concat (map kept_rows dfs)).
Proof.
  unfold getUserBackground. intros Hrun.
  apply add_files_inv in Hrun as (dfs & Hread & Hrows).
  destruct (add_user_rows_parallel _ _ _ Hrows (Forall_nil_2 _)) as [Hpar Hrec].
  split; [exact Hpar|]. exists dfs. split; [exact Hread | exact Hrec].
Qed.

Lemma distinct_keys_snoc {V : Type} (d : list (cell * V)) (k : cell) (v : V) :
  distinct_keys d ->
  Forall (fun e => same_key (fst e) k = false) d ->
  distinct_keys (d ++ [(k, v)]).
Proof.
  induction d as [|[k' v'] d IH]; simpl.
  - intros _ _. split; [constructor | exact I].
  - intros [Hk' Hd] Hall. apply Forall_cons_1 in Hall as [Hk Hall]. split.
    + apply Forall_app. split; [exact Hk'|]. by repeat constructor.
    + by apply IH.
Qed.

Lemma distinct_keys_value {V : Type} (l1 l2 : list (cell * V)) (k : cell) (v v' : V) :
  distinct_keys (l1 ++ (k, v) :: l2) -> distinct_keys (l1 ++ (k, v') :: l2).
Proof.
  induction l1 as [|[k1 v1] l1 IH]; simpl.
  - intros [Hk Hd]. split; assumption.
  - intros [Hk1 Hd]. split; [|by apply IH].
    apply Forall_app in Hk1 as [Ha Hb]. apply Forall_cons_1 in Hb as [Hb Hc].
    apply Forall_app. split; [exact Ha|]. constructor; assumption.
Qed.

Lemma distinct_keys_after {V : Type} (l1 l2 : list (cell * V)) (k : cell) (v : V) :
  distinct_keys (l1 ++ (k, v) :: l2) ->
  Forall (fun e => same_key k (fst e) = false) l2.
Proof.
  induction l1 as [|[k1 v1] l1 IH]; simpl; [by intros [Hk _]|].
  intros [_ Hd]. by apply IH.
Qed.

Lemma rows_of_snoc (u : cell) (done : list row) (line : row) :
  rows_of u (done ++ [line])
  = (rows_of u done ++ if same_key u (user_id line) then [line] else [])%list.
Proof. unfold rows_of. by rewrite List.filter_app. Qed.

Lemma grouped_skip (done : list row) (line : row) (entry : cell * UserLists) :
  same_key (fst entry) (user_id line) = false ->
  grouped done entry -> grouped (done ++ [line]) entry.
Proof.
  destruct entry as [u [[ids rats] revs]]. simpl. intros Hu Hg.
  unfold grouped. by rewrite rows_of_snoc, Hu, app_nil_r.
Qed.

Lemma same_key_false (ids : list cell) (a b : cell) :
  key_is_eq ids -> In a ids -> In b ids -> a <> b -> same_key a b = false.
Proof.
  intros Hkey Ha Hb Hne. destruct (same_key a b) eqn:Hs; [|reflexivity].
  by apply Hkey in Hs.
Qed.

Lemma add_user_row_collected (ids : list cell) (done : list row)
  (users users' : list (cell * UserLists)) (line : row) :
  key_is_eq ids ->
  (forall r, In r (done ++ [line]) -> In (user_id r) ids) ->
  collected done users ->
  add_user_row users line = Ok users' ->
  collected (done ++ [line]) users'.
Proof.
  intros Hkey Hids (Hdist & Hfrom & Hcover & Hgroup) Hrun.
  assert (Huser : In (user_id line) ids).
  { apply Hids, in_or_app. right. by left. }
  assert (Hkeys : forall e, In e users -> In (fst e) ids).
  { intros e He. rewrite Forall_forall in Hfrom.
    apply list_elem_of_In, Hfrom, in_map_iff in He as (r & <- & Hr).
    apply Hids, in_or_app. by left. }
  apply add_user_row_inv in Hrun as (i & r & Hi & Hr & [[Hnew ->] | Hold]).
  - (* a new user *)
    assert (Hfresh : forall r0, In r0 done -> same_key (user_id line) (user_id r0) = false).
    { intros r0 Hr0. rewrite Forall_forall in Hcover.
      apply list_elem_of_In, Hcover, in_map_iff in Hr0 as (e & He & Hin).
      rewrite Forall_forall in Hnew. pose proof (Hnew e (proj2 (list_elem_of_In _ _) Hin)) as Hne.
      apply (same_key_false ids); [assumption.. | |].
      - rewrite <- He. by apply Hkeys.
      - intros Heq. rewrite He, <- Heq in Hne.
        assert (same_key (user_id line) (user_id line) = true) by by apply Hkey.
        congruence. }
    repeat split.
    + by apply distinct_keys_snoc.
    + apply Forall_app. split.
      * eapply Forall_impl; [exact Hfrom|]. intros e He. rewrite map_app.
        apply in_or_app. by left.
      * repeat constructor. simpl. rewrite map_app. apply in_or_app. right. by left.
    + apply Forall_app. split.
      * eapply Forall_impl; [exact Hcover|]. intros r0 Hr0. rewrite map_app.
        apply in_or_app. by left.
      * repeat constructor. rewrite map_app. apply in_or_app. right. by left.
    + apply Forall_app. split.
      * rewrite Forall_forall in Hgroup, Hnew. apply Forall_forall. intros e He.
        apply grouped_skip; auto.
      * constructor; [|constructor]. unfold grouped. rewrite rows_of_snoc.
        assert (Hnone : rows_of (user_id line) done = []).
        { unfold rows_of. clear -Hfresh. induction done as [|r0 done IH]; [reflexivity|].
          simpl. rewrite Hfresh by (by left). apply IH. intros r1 Hr1.
          apply Hfresh. by right. }
        rewrite Hnone. assert (Hself : same_key (user_id line) (user_id line) = true)
          by by apply Hkey.
        rewrite Hself. simpl. repeat split; by repeat constructor.
  - (* a user that is there *)
    destruct Hold as (l1 & k & uids & rats & revs & l2 & -> & Hk & Hl1 & ->).
    assert (Hkin : In k ids).
    { apply (Hkeys (k, (uids, rats, revs))), in_or_app. right. by left. }
    assert (Hkeq : k = user_id line) by by apply (Hkey k (user_id line)).
    pose proof (distinct_keys_after _ _ _ _ Hdist) as Hl2.
    apply Forall_app in Hfrom as [Hf1 Hf2]. apply Forall_cons_1 in Hf2 as [Hfk Hf2].
    apply Forall_app in Hgroup as [Hg1 Hg2]. apply Forall_cons_1 in Hg2 as [Hgk Hg2].
    assert (Hlater : Forall (fun e : cell * UserLists =>
                               same_key (fst e) (user_id line) = false) l2).
    { apply Forall_forall. intros e He. rewrite Forall_forall in Hl2.
      pose proof (Hl2 e He) as Hne. apply list_elem_of_In in He.
      assert (Hein : In (fst e) ids).
      { apply Hkeys, in_or_app. right. by right. }
      apply (same_key_false ids); [assumption..|].
      intros Heq. rewrite <- Hkeq in Heq. rewrite <- Heq in Hne.
      assert (same_key (fst e) (fst e) = true) by by apply Hkey. congruence. }
    assert (Hweak : forall e : cell * UserLists,
               In (fst e) (map user_id done) ->
               In (fst e) (map user_id (done ++ [line]))).
    { intros e He. rewrite map_app. apply in_or_app. by left. }
    repeat split.
    + by eapply distinct_keys_value.
    + apply Forall_app. split; [eapply Forall_impl; [exact Hf1 | exact Hweak]|].
      constructor; [by apply (Hweak (k, (uids, rats, revs)))|].
      eapply Forall_impl; [exact Hf2 | exact Hweak].
    + apply Forall_app. split.
      * eapply Forall_impl; [exact Hcover|]. intros r0 Hr0.
        rewrite map_app in *. exact Hr0.
      * repeat constructor. rewrite <- Hkeq, map_app. apply in_or_app. right. by left.
    + apply Forall_app. split.
      * rewrite Forall_forall in Hg1, Hl1. apply Forall_forall. intros e He.
        apply grouped_skip; auto.
      * constructor.
        -- destruct Hgk as (Ha & Hb & Hc). unfold grouped.
           rewrite rows_of_snoc, Hk. rewrite map_app. simpl.
           repeat split; [apply Forall2_app; [exact Ha | by repeat constructor]
                         | apply Forall2_app; [exact Hb | by repeat constructor]
                         | by rewrite Hc].
        -- rewrite Forall_forall in Hg2, Hlater. apply Forall_forall. intros e He.
           apply grouped_skip; auto.
Qed.

Lemma add_user_rows_collected (ids : list cell) (rows done : list row)
  (users users' : list (cell * UserLists)) :
  key_is_eq ids ->
  (forall r, In r (done ++ rows) -> In (user_id r) ids) ->
  collected done users ->
  for_each add_user_row rows users = Ok users' ->
  collected (done ++ rows) users'.
Proof.
  intros Hkey. revert done users.
  induction rows as [|line rows IH]; intros done users Hids Hinv Hrun; simpl in Hrun.
  - injection Hrun as <-. by rewrite app_nil_r.
  - unfold bind in Hrun.
    destruct (add_user_row users line) as [users1|] eqn:Hstep; [|discriminate].
    replace (done ++ line :: rows)%list with ((done ++ [line]) ++ rows)%list in *
      by (rewrite <- app_assoc; reflexivity).
    eapply IH; [exact Hids | | exact Hrun].
    eapply add_user_row_collected; [exact Hkey | | exact Hinv | exact Hstep].
    intros r0 Hr0. apply Hids, in_or_app. by left.
Qed.

Lemma read_frames_unique (files : list string) (dfs dfs' : list DataFrame) :
  Forall2 (fun file df => read_csv file = Ok df) files dfs ->
  Forall2 (fun file df => read_csv file = Ok df) files dfs' ->
  dfs = dfs'.
Proof.
  intros Hd. revert dfs'. induction Hd as [|file df files dfs Hf _ IH]; intros dfs' Hd'.
  - by apply Forall2_nil_inv_l in Hd'.
  - apply Forall2_cons_inv_l in Hd' as (df' & dfs'' & Hf' & Hd' & ->).
    rewrite Hf in Hf'. injection Hf' as <-. f_equal. by apply IH.
Qed.

(** X12: when being the same key is being equal on the user ids of the
    files (as it is for ids that are strings), [getUserBackground] groups
    the rows by user: no two keys of the result are the same key, every
    row's user has an entry, and the lists of a user hold the coerced item
    ids, the coerced ratings and the tokenized reviews of that user's
    rows, in the order of the rows across the files. *)
Theorem getUserBackground_groups_by_user
  (files : list string) (dfs : list DataFrame) (users : list (cell * UserLists)) :
  getUserBackground files = Ok users ->
  Forall2 (fun file df => read_csv file = Ok df) files dfs ->
  key_is_eq (map user_id (concat (map kept_rows dfs))) ->
  distinct_keys users /\
  Forall (fun r => In (user_id r) (map fst users)) (concat (map kept_rows dfs)) /\
  Forall (grouped (concat (map kept_rows dfs))) users.
Proof.
  unfold getUserBackground. intros Hrun Hread Hkey.
  apply add_files_inv in Hrun as (dfs' & Hread' & Hrows).
  rewrite (read_frames_unique _ _ _ Hread Hread').
  rewrite (read_frames_unique _ _ _ Hread Hread') in Hkey.
  assert (Hinit : collected [] []).
  { repeat split; constructor. }
  pose proof (add_user_rows_collected _ _ [] [] users Hkey
                (fun r Hr => in_map user_id _ r Hr) Hinit Hrows)
    as (Hdist & _ & Hcover & Hgroup).
  auto.
Qed.

End WithLibraries.

(** *** The language representations *)

Section Representations.

Context `{PyDict}.



Lemma zip_fadd_length (a b : list npfloat) (n : nat) :
  length a = n -> length b = n -> length (zip_with fadd a b) = n.
Proof. intros Ha Hb. rewrite length_zip_with. lia. Qed.


Lemma getFeatures_rows (model : Word2Vec) (reviews : list review) :
  Forall (fun row => length row = 128%nat) (getFeatures model reviews).
Proof.
  rewrite getFeatures_map. apply Forall_map, Forall_forall. intros r _.
  apply review_features_length.
Qed.

Lemma average_rows_rows (temp_features : matrix) :
  temp_features <> [] ->
  average_rows temp_features
  = Some (map (fun x => fdiv x (Z.of_nat (length temp_features)))
              (fold_left (zip_with fadd) temp_features (repeat (Fin 0) 128))).
Proof. destruct temp_features; [contradiction | reflexivity]. Qed.

Lemma getFeatures_nil (model : Word2Vec) (reviews : list review) :
  getFeatures model reviews = [] <-> reviews = [].
Proof. rewrite getFeatures_map. destruct reviews; simpl; split; congruence. Qed.


Lemma average_rows_None (model : Word2Vec) (reviews : list review) :
  average_rows (getFeatures model reviews) = None <-> reviews = [].
Proof.
  rewrite getFeatures_map. destruct reviews; simpl; split; congruence.
Qed.



Lemma lang_rep_loop_None (model : Word2Vec)
  (todo : list (cell * UserLists)) (acc : list (cell * list npfloat)) :
  lang_rep_loop model todo acc = None <->
  Exists (fun e => reviews_of e = []) todo.
Proof.
  revert acc. induction todo as [|[user [[ids rats] revs]] todo IH]; intros acc; simpl.
  - split; [discriminate | intros Hex; inversion Hex].
  - destruct (average_rows (getFeatures model revs)) as [rep|] eqn:Havg.
    + rewrite IH. split; [by right|]. intros Hex.
      apply Exists_cons in Hex as [Hhere|Hex]; [|exact Hex].
      unfold reviews_of in Hhere. simpl in Hhere. subst revs. discriminate Havg.
    + split; [|reflexivity]. intros _. left. by apply average_rows_None in Havg.
Qed.

(** X14: [getUserLangRepresentation] fails, with the [TypeError] of
    dividing a list, exactly when some user has no review. *)
Theorem getUserLangRepresentation_TypeError (model : Word2Vec)
  (users : list (cell * UserLists)) :
  getUserLangRepresentation model users = None <->
  Exists (fun e => reviews_of e = []) users.
Proof. apply lang_rep_loop_None. Qed.

End Representations.

Lemma zero_tokens_row (E : Word2Vec) (r : review) :
  len r = 0%nat -> review_features E r = repeat NaN 128.
Proof.
  intros Hlen. rewrite review_features_spec. unfold Features.Spec.extractFeature.
  rewrite Hlen, (len_zero_words r Hlen). reflexivity.
Qed.

Lemma zip_fadd_nan_l (n : nat) (row : list npfloat) :
  length row = n -> zip_with fadd (repeat NaN n) row = repeat NaN n.
Proof.
  revert row. induction n as [|n IH]; intros [|x row] Hlen; simpl in *;
    try discriminate; [reflexivity|].
  f_equal. apply IH. lia.
Qed.

Lemma zip_fadd_nan_r (n : nat) (acc : list npfloat) :
  length acc = n -> zip_with fadd acc (repeat NaN n) = repeat NaN n.
Proof.
  revert acc. induction n as [|n IH]; intros [|x acc] Hlen; simpl in *;
    try discriminate; [reflexivity|].
  f_equal; [by destruct x | apply IH; lia].
Qed.

Lemma fold_fadd_nan (n : nat) (rows : matrix) (acc : list npfloat) :
  Forall (fun row => length row = n) rows ->
  length acc = n ->
  acc = repeat NaN n \/ In (repeat NaN n) rows ->
  fold_left (zip_with fadd) rows acc = repeat NaN n.
Proof.
  intros Hrows. revert acc.
  induction Hrows as [|row rows Hrow _ IH]; intros acc Hacc Hnan; simpl.
  - destruct Hnan as [-> | []]. reflexivity.
  - apply IH; [by apply zip_fadd_length|].
    destruct Hnan as [-> | [-> | Hin]].
    + left. by apply zip_fadd_nan_l.
    + left. by apply zip_fadd_nan_r.
    + by right.
Qed.

(** X15: one review without tokens spoils the user: the representation
    of a user who has such a review is 128 times nan. *)
Theorem average_rows_nan (model : Word2Vec) (reviews : list review) (r : review) :
  In r reviews -> len r = 0%nat ->
  average_rows (getFeatures model reviews) = Some (repeat NaN 128).
Proof.
  intros Hin Hlen. rewrite average_rows_rows.
  - f_equal. rewrite (fold_fadd_nan 128).
    + by rewrite map_repeat.
    + apply getFeatures_rows.
    + apply repeat_length.
    + right. rewrite getFeatures_map, <- (zero_tokens_row model r Hlen).
      by apply in_map.
  - rewrite getFeatures_nil. intros ->. contradiction.
Qed.

Lemma review_features_mean (E : Word2Vec) (r : review) :
  (0 < len r)%nat -> review_features E r = map Fin (review_mean E r).
Proof.
  intros Hlen. rewrite review_features_spec.
  unfold Features.Spec.extractFeature, Np.divide, review_mean.
  rewrite map_map. apply map_ext. intros x. unfold true_divide.
  destruct (Z.eqb_spec (Z.of_nat (len r)) 0); [lia | reflexivity].
Qed.

Lemma zip_fadd_fin (a b : list Q) :
  zip_with fadd (map Fin a) (map Fin b) = map Fin (Np.add a b).
Proof.
  revert b. induction a as [|x a IH]; intros [|y b]; simpl; try reflexivity.
  f_equal. apply IH.
Qed.

Lemma fold_fadd_fin (qrows : list (list Q)) (acc : list Q) :
  fold_left (zip_with fadd) (map (map Fin) qrows) (map Fin acc)
  = map Fin (fold_left Np.add qrows acc).
Proof.
  revert acc. induction qrows as [|q qrows IH]; intros acc; simpl; [reflexivity|].
  by rewrite zip_fadd_fin, IH.
Qed.

(** X16: for a user with at least one review, all of whose reviews have
    at least one token, the representation is finite and is, entry by
    entry, the mean over the reviews of the review averages (the sum of
    the vectors of the known tokens over the number of tokens). *)
Theorem average_rows_mean (model : Word2Vec) (reviews : list review) :
  reviews <> [] ->
  Forall (fun r => (0 < len r)%nat) reviews ->
  average_rows (getFeatures model reviews) = Some (map Fin (user_mean model reviews)).
Proof.
  intros Hne Hlen. rewrite average_rows_rows by by rewrite getFeatures_nil.
  assert (Hrows : getFeatures model reviews
                  = map (map Fin) (map (review_mean model) reviews)).
  { rewrite getFeatures_map, map_map. clear -Hlen.
    induction Hlen as [|r reviews Hr _ IH]; simpl; [reflexivity|].
    by rewrite IH, review_features_mean. }
  rewrite Hrows.
  replace (repeat (Fin 0) 128) with (map Fin (zeros 128)) by reflexivity.
  rewrite fold_fadd_fin, !length_map, map_map.
  unfold user_mean. rewrite map_map. f_equal. apply map_ext. intros x.
  unfold fdiv, true_divide.
  destruct (Z.eqb_spec (Z.of_nat (length reviews)) 0); [|reflexivity].
  destruct reviews; [contradiction | simpl in *; lia].
Qed.

Lemma check_array_finite (n : nat) (X : matrix) (M : list (list Q)) :
  check_array n X = Ok M ->
  Forall (fun x => Forall (fun v => is_finite v = true) x /\ length x = n) X.
Proof.
  unfold check_array. destruct (mapM (mapM as_finite) X) as [M'|] eqn:HM; [|discriminate].
  destruct (forallb _ M') eqn:Hw; [|discriminate]. intros _.
  apply mapM_Some in HM. rewrite forallb_forall in Hw.
  induction HM as [|x qx X M' Hx _ IH]; constructor.
  - apply mapM_Some in Hx. split.
    + clear -Hx. induction Hx as [|v q x qx Hv _ IH]; constructor; [|exact IH].
      by destruct v.
    + rewrite (Forall2_length _ _ _ Hx). apply Nat.eqb_eq, Hw. by left.
  - apply IH. intros y Hy. apply Hw. by right.
Qed.

(** X17: [runPCAMatrix] returns projections only for representations
    that are free of nan and infinities and all of one length, and then
    it returns one projection for each user; for any other input it
    raises. *)
Theorem runPCAMatrix_needs_finite_input `{SklearnPCA}
  (user_reps : list (string * list npfloat)) (v_matrix : list (list Q)) :
  runPCAMatrix user_reps = Ok v_matrix ->
  length v_matrix = length user_reps /\
  exists width,
    Forall (fun x => Forall (fun v => is_finite v = true) x /\ length x = width)
           (values user_reps).
Proof.
  intros Hrun.
  apply UserFactorsFacts.runPCAMatrix_returns_projections in Hrun
    as (user_PCA & _ & Ht).
  unfold PCA_transform in Ht.
  destruct (fitted user_PCA) as [[mean_ components_]|] eqn:Hfit; [|discriminate].
  unfold_bind.
  destruct (check_array (length mean_) (values user_reps)) as [M|] eqn:HM;
    [|discriminate].
  injection Ht as <-. split.
  - rewrite !length_map, (UserFactorsFacts.check_array_length _ _ _ HM).
    unfold values. by rewrite length_map.
  - exists (length mean_). by eapply check_array_finite.
Qed.

(** *** Concrete runs *)

Import Toy ToyShop ToyUsers.

(** With the toy dictionary, the same key is the same string. *)
Lemma toy_dict_strings (ids : list cell) :
  Forall (fun c => exists s, c = CStr s) ids -> @key_is_eq toy_dict ids.
Proof.
  intros Hstr a b Ha Hb. rewrite Forall_forall in Hstr.
  destruct (Hstr a (proj2 (list_elem_of_In _ _) Ha)) as [s ->].
  destruct (Hstr b (proj2 (list_elem_of_In _ _) Hb)) as [t ->].
  simpl. rewrite String.eqb_eq. split; congruence.
Qed.

Example getUserBackground_shop :
  @getUserBackground shop_pandas toy_dict toy_builtins toy_nltk
    ["food_train.csv"; "food_trial.csv"] = Ok shop_users.
Proof. reflexivity. Qed.

Lemma getUserBackground_parallel_lists_witness :
  Forall parallel shop_users /\
  exists dfs,
    Forall2 (fun file df => @read_csv shop_pandas file = Ok df)
            ["food_train.csv"; "food_trial.csv"] dfs /\
    sum_list_with (fun e => length (reviews_of e)) shop_users
    = length (concat (map kept_rows dfs)).
Proof.
  apply (@getUserBackground_parallel_lists shop_pandas toy_dict toy_builtins toy_nltk
           ["food_train.csv"; "food_trial.csv"] shop_users).
  reflexivity.
Defined.

Lemma getUserBackground_groups_by_user_witness :
  @distinct_keys toy_dict _ shop_users /\
  Forall (fun r => In (user_id r) (map fst shop_users))
         (concat (map kept_rows [toy_frame; trial_frame])) /\
  Forall (@grouped toy_dict toy_builtins toy_nltk
            (concat (map kept_rows [toy_frame; trial_frame]))) shop_users.
Proof.
  apply (@getUserBackground_groups_by_user shop_pandas toy_dict toy_builtins toy_nltk
           ["food_train.csv"; "food_trial.csv"] [toy_frame; trial_frame] shop_users).
  - reflexivity.
  - repeat constructor.
  - apply toy_dict_strings. vm_compute. repeat constructor; eexists; reflexivity.
Defined.


Lemma average_rows_nan_witness :
  average_rows (getFeatures good_space [Tokens ["good"]; Tokens []])
  = Some (repeat NaN 128).
Proof.
  apply (average_rows_nan good_space [Tokens ["good"]; Tokens []] (Tokens [])).
  - simpl. auto.
  - reflexivity.
Defined.

Lemma average_rows_mean_witness :
  average_rows (getFeatures good_space [Tokens ["good"; "item"]; Tokens ["good"]])
  = Some (map Fin (user_mean good_space [Tokens ["good"; "item"]; Tokens ["good"]])).
Proof.
  apply (average_rows_mean good_space [Tokens ["good"; "item"]; Tokens ["good"]]).
  - discriminate.
  - repeat constructor.
Defined.

Lemma runPCAMatrix_needs_finite_input_witness :
  length [[3; 0; 0]; [-3; 0; 0]; [0; 2; 0]; [0; -2; 0]; [0; 0; 1]; [0; 0; -1]]%Q
  = length six_users /\
  exists width,
    Forall (fun x => Forall (fun v => is_finite v = true) x /\ length x = width)
           (values six_users).
Proof.
  apply (@runPCAMatrix_needs_finite_input axes_fit six_users). reflexivity.
Defined.

End UsersFacts.
